(** * Smart Document Analyser: the analysis and trend pipeline

    A shallow embedding of the backend's analysis core
    (services/aiService.ts, models/Topic.ts, the Document model that
    follows the User model in models/User.ts, and routes/documents.ts)
    together with the properties its specification states about it.

    Conventions of the embedding.
    - Texts are [string]s of 8-bit characters: the Latin-1 range of
      JavaScript's UTF-16 code units.
    - Counters, lengths and dates in milliseconds are integers; the
      sentiment scores of an analysis and the numbers of an embedding,
      which the code passes on without computing with them, are
      rationals.
    - The trend data of a topic is computed over an [Arithmetic]: on
      binary64 numbers, as the code computes it, and on the rationals for
      the bounds, which do not depend on the rounding.
      [calculateSimilarity], whose behaviour on undefined operands and NaN
      matters, is modelled on binary64 numbers.
    - An async function that may reject returns a [result]; try/catch is
      [try_catch].
    - The remote provider, the process environment, [JSON.parse],
      [Math.random] and the clock are the fields of an injected [Env];
      what mongoose makes of values it has to convert is the content of an
      injected [Mongoose]. The store itself is taken to be reachable. *)

From Stdlib Require Import List ZArith QArith Qround Qminmax String Ascii.
From Stdlib Require Import Floats Lia Lqa Permutation Sorted DecimalString.
From Stdlib Require Uint63.
From stdpp Require Import gmap strings.
Import ListNotations.
Set Warnings "-abstract-large-number".
Open Scope string_scope.
Open Scope nat_scope.

(** ** The JavaScript runtime, as far as the code uses it *)

Module JS.

(** *** Exceptions and try/catch *)

Inductive result (A : Type) : Type :=
| Ok (a : A)
| Throw (msg : string).
Arguments Ok {A} a.
Arguments Throw {A} msg.

Definition bind {A B} (r : result A) (k : A -> result B) : result B :=
  match r with
  | Ok a => k a
  | Throw e => Throw e
  end.

Definition try_catch {A} (body : result A) (handler : string -> result A)
  : result A :=
  match body with
  | Ok a => Ok a
  | Throw e => handler e
  end.

Notation "'let!' x ':=' c 'in' k" := (bind c (fun x => k))
  (at level 10, x name, c at level 100, k at level 200).

(** *** Characters and strings *)

Definition code (c : ascii) : nat := nat_of_ascii c.

Definition in_range (lo hi n : nat) : bool := (lo <=? n) && (n <=? hi).

(** [\s] on Latin-1: TAB, LF, VT, FF, CR, SPACE and NBSP. *)
Definition is_space (c : ascii) : bool :=
  in_range 9 13 (code c) || (code c =? 32) || (code c =? 160).

(** [\w] is [A-Za-z0-9_]. *)
Definition is_word_char (c : ascii) : bool :=
  in_range 65 90 (code c) || in_range 97 122 (code c)
  || in_range 48 57 (code c) || (code c =? 95).

Definition is_digit (c : ascii) : bool := in_range 48 57 (code c).

(** [String.prototype.toLowerCase] on Latin-1: A-Z and the accented
    capitals 0xC0-0xDE (0xD7, the multiplication sign, apart). *)
Definition lower_char (c : ascii) : ascii :=
  let n := code c in
  if in_range 65 90 n
     || (in_range 192 222 n && negb (n =? 215))
  then ascii_of_nat (n + 32) else c.

Definition chars : string -> list ascii := list_ascii_of_string.
Definition str : list ascii -> string := string_of_list_ascii.

Definition toLowerCase (s : string) : string :=
  str (map lower_char (chars s)).

(** [s.replace(/[^\w\s]/g, '')] *)
Definition strip_non_word (s : string) : string :=
  str (List.filter (fun c => is_word_char c || is_space c) (chars s)).

(** [s.split(/\s+/)]: every maximal run of white space is one separator;
    a leading or trailing separator leaves an empty piece, and the empty
    string splits into one empty piece. [cur] is the piece being read,
    reversed; [in_sep] tells that the previous character was white
    space. *)
Fixpoint split_ws_from (cur : list ascii) (in_sep : bool) (s : list ascii)
  : list string :=
  match s with
  | [] => [str (rev cur)]
  | c :: s' =>
      if is_space c then
        if in_sep then split_ws_from [] true s'
        else str (rev cur) :: split_ws_from [] true s'
      else split_ws_from (c :: cur) false s'
  end.

Definition split_ws (s : string) : list string :=
  split_ws_from [] false (chars s).

(** Is [w] a prefix of [s]? *)
Fixpoint starts_with (w s : list ascii) : bool :=
  match w, s with
  | [], _ => true
  | _ :: _, [] => false
  | a :: w', b :: s' => Ascii.eqb a b && starts_with w' s'
  end.

(** [(s.match(new RegExp(w, 'g')) || []).length] for a literal, non-empty
    [w]: the matches found from left to right, each search resuming after
    the previous match. [skip] counts the characters of the last match
    still to pass. *)
Fixpoint count_from (w : list ascii) (skip : nat) (s : list ascii) : nat :=
  match s with
  | [] => 0
  | _ :: s' =>
      match skip with
      | S k => count_from w k s'
      | O =>
          if starts_with w s
          then S (count_from w (Nat.pred (List.length w)) s')
          else count_from w 0 s'
      end
  end.

Definition count_matches (w s : string) : nat :=
  count_from (chars w) 0 (chars s).

(** Template literals print a number in decimal. *)
Definition show_nat (n : nat) : string :=
  NilZero.string_of_uint (Nat.to_uint n).

(** *** Values of dynamic type: what [JSON.parse] returns *)

#[local] Unset Elimination Schemes.
Inductive json : Type :=
| JNull
| JBool (b : bool)
| JNum (q : Q)
| JStr (s : string)
| JArr (items : list json)
| JObj (props : list (string * json)).
#[local] Set Elimination Schemes.

(** A value that may be [undefined]. *)
Definition any : Type := option json.

(** [JSON.parse] keeps the last of several members with one name. *)
Fixpoint own_prop (k : string) (props : list (string * json)) : any :=
  match props with
  | [] => None
  | (k', v) :: rest =>
      match own_prop k rest with
      | Some v' => Some v'
      | None => if String.eqb k k' then Some v else None
      end
  end.

(** [v.k]: a TypeError on [null], the member of an object, [undefined] on
    the other values (none of the names the code reads is a property of
    a primitive's or an array's prototype). *)
Definition get (v : json) (k : string) : result any :=
  match v with
  | JNull => Throw "TypeError: Cannot read properties of null"
  | JObj props => Ok (own_prop k props)
  | _ => Ok None
  end.

(** [v?.k] for a [v] already evaluated. *)
Definition get_opt (v : any) (k : string) : any :=
  match v with
  | None | Some JNull => None
  | Some (JObj props) => own_prop k props
  | Some _ => None
  end.

Definition truthy (v : any) : bool :=
  match v with
  | None | Some JNull => false
  | Some (JBool b) => b
  | Some (JNum q) => negb (Qeq_bool q 0)
  | Some (JStr s) => negb (String.eqb s EmptyString)
  | Some (JArr _) | Some (JObj _) => true
  end.

(** [v || d] *)
Definition or_else (v : any) (d : json) : json :=
  match v with
  | Some j => if truthy v then j else d
  | None => d
  end.

(** [Array.isArray(v) ? v.slice(0, n) : []] *)
Definition array_prefix (n : nat) (v : any) : list json :=
  match v with
  | Some (JArr items) => firstn n items
  | _ => []
  end.

(** *** [Array.prototype.sort] with a comparator

    The sort is stable: [x] goes before [y] unless the comparator puts it
    strictly after. A comparator result that is NaN counts as 0; here the
    comparator returns an integer and the caller maps NaN to 0. For a
    comparator that is a consistent ordering, this is the one result the
    language allows. *)
Section Sort.
Context {A : Type} (cmp : A -> A -> Z).

Fixpoint sort_insert (x : A) (l : list A) : list A :=
  match l with
  | [] => [x]
  | y :: l' =>
      if (cmp x y <=? 0)%Z then x :: y :: l'
      else y :: sort_insert x l'
  end.

Definition sort (l : list A) : list A := fold_right sort_insert [] l.
End Sort.

(** [Array.from({ length: n }, f)] for an [f] that reads and advances a
    state, called once per element, in order. *)
Fixpoint array_from {S A : Type} (n : nat) (f : S -> A * S) (s : S)
  : list A * S :=
  match n with
  | O => ([], s)
  | Datatypes.S n' =>
      let (a, s1) := f s in
      let (l, s2) := array_from n' f s1 in
      (a :: l, s2)
  end.

(** *** Ordinary objects used as dictionaries: [const o = {}]

    The own properties are kept in creation order. Reading a name that is
    not an own property reaches [Object.prototype]; of its members only
    [constructor] and [__proto__] are spelt in lower case and word
    characters, so only they can meet a token of the analyser. *)
Section Dict.
Context {V : Type}.

Definition dict : Type := list (string * V).

Fixpoint dict_get (k : string) (o : dict) : option V :=
  match o with
  | [] => None
  | (k', v) :: rest => if String.eqb k k' then Some v else dict_get k rest
  end.

(** [o[k] = v] for a name that is not an accessor of the prototype:
    an own property keeps its place, a new one is created last. *)
Fixpoint dict_set (k : string) (v : V) (o : dict) : dict :=
  match o with
  | [] => [(k, v)]
  | (k', v') :: rest =>
      if String.eqb k k' then (k', v) :: rest
      else (k', v') :: dict_set k v rest
  end.
End Dict.
Arguments dict V : clear implicits.

Fixpoint digits_value (acc : N) (s : list ascii) : N :=
  match s with
  | [] => acc
  | c :: s' => digits_value (acc * 10 + N.of_nat (code c - 48)) s'
  end.

(** An array index is the canonical decimal form of an integer from 0 to
    2^32 - 2. *)
Definition array_index (k : string) : option N :=
  match chars k with
  | [] => None
  | c :: rest =>
      if forallb is_digit (c :: rest)
         && implb (code c =? 48) (match rest with [] => true | _ => false end)
         && (List.length (c :: rest) <=? 10)
      then
        let n := digits_value 0 (c :: rest) in
        if (n <? 4294967295)%N then Some n else None
      else None
  end.

Definition is_array_index (k : string) : bool :=
  match array_index k with Some _ => true | None => false end.

Definition index_of (k : string) : Z :=
  match array_index k with Some n => Z.of_N n | None => 0 end.

(** [Object.entries(o)]: the array indices first, in ascending numeric
    order, then the other names in creation order. *)
Definition entries {V} (o : dict V) : list (string * V) :=
  sort (fun a b => (index_of (fst a) - index_of (fst b))%Z)
       (List.filter (fun kv => is_array_index (fst kv)) o)
  ++ List.filter (fun kv => negb (is_array_index (fst kv))) o.

End JS.

(** ** services/aiService.ts *)

Module AIService.
Import JS.

(** The variable parts of the analysis prompt; the fixed text of the
    template around them is left out. *)
Record ChatRequest : Type := {
  prompt_document : string;
  prompt_content : string
}.

(** [completion.choices[i].message.content], absent or a string. *)
Record Completion : Type := { choices : list (option string) }.

(** [response.data[i].embedding], absent or a vector. *)
Record EmbeddingResponse : Type := { data : list (option (list Q)) }.

Record Env : Type := {
  OPENAI_API_KEY : option string;
  chat_completions_create : ChatRequest -> result Completion;
  embeddings_create : string -> result EmbeddingResponse;
  JSON_parse : string -> option json;
  (** the n-th value of [Math.random()] *)
  Math_random : nat -> Q;
  (** [new Date()], in milliseconds *)
  Date_now : Z
}.

Record Summary : Type := { short : json; medium : json; detailed : json }.

Record Sentiment : Type := { score : json; label : json; confidence : json }.

Record DocumentAnalysis : Type := {
  summary : Summary;
  sentiment : Sentiment;
  keywords : list json;
  topics : list json;
  entities : list json;
  readingTime : nat;
  complexity : json;
  language : json
}.

(** [!process.env.OPENAI_API_KEY ||
     process.env.OPENAI_API_KEY === 'your-openai-api-key-here'] *)
Definition key_missing (env : Env) : bool :=
  match OPENAI_API_KEY env with
  | None => true
  | Some k => String.eqb k EmptyString || String.eqb k "your-openai-api-key-here"
  end.

(** [fileName || d] *)
Definition name_or (fileName : option string) (d : string) : string :=
  match fileName with
  | Some s => if String.eqb s EmptyString then d else s
  | None => d
  end.

Definition wordCountOf (text : string) : nat := List.length (split_ws text).

(** [Math.ceil(wordCount / 200)] *)
Definition readingTimeOf (wordCount : nat) : nat := (wordCount + 199) / 200.

(** *** generateSimulatedAnalysis *)

Definition commonWords : gset string :=
  list_to_set
    ["the"; "a"; "an"; "and"; "or"; "but"; "in"; "on"; "at"; "to"; "for";
     "of"; "with"; "by"; "is"; "are"; "was"; "were"; "be"; "been"; "have";
     "has"; "had"; "do"; "does"; "did"; "will"; "would"; "could"; "should";
     "may"; "might"; "can"; "this"; "that"; "these"; "those"].

Definition is_common (w : string) : bool := bool_decide (w ∈ commonWords).

Definition keep_word (w : string) : bool :=
  (3 <? String.length w) && negb (is_common w).

Definition words (text : string) : list string :=
  List.filter keep_word (split_ws (strip_non_word (toLowerCase text))).

(** A value of [wordFreq]: a count, or the string that [+ 1] makes of a
    member inherited from [Object.prototype]. *)
Inductive freq : Type :=
| Count (n : nat)
| Text (s : string).

(** The string conversion of [Object.prototype[w]] for a lower-case
    token [w]. *)
Definition inherited (w : string) : option string :=
  if String.eqb w "constructor" then Some "function Object() { [native code] }"
  else if String.eqb w "__proto__" then Some "[object Object]"
  else None.

(** [(wordFreq[word] || 0) + 1] *)
Definition next_freq (wordFreq : dict freq) (word : string) : freq :=
  match dict_get word wordFreq with
  | Some (Count n) => Count (n + 1)
  | Some (Text s) => Text (s ++ "1")
  | None =>
      match inherited word with
      | Some s => Text (s ++ "1")
      | None => Count 1
      end
  end.

(** [wordFreq[word] = v]: the [__proto__] setter ignores a value that is
    not an object. *)
Definition assign (wordFreq : dict freq) (word : string) (v : freq)
  : dict freq :=
  if String.eqb word "__proto__" then wordFreq else dict_set word v wordFreq.

Definition count_word (wordFreq : dict freq) (word : string) : dict freq :=
  assign wordFreq word (next_freq wordFreq word).

Definition wordFreqOf (ws : list string) : dict freq :=
  fold_left count_word ws [].

(** [Number(v)]: the strings met here are never numerals. *)
Definition to_number (v : freq) : option Z :=
  match v with
  | Count n => Some (Z.of_nat n)
  | Text _ => None
  end.

(** [([, a], [, b]) => b - a], NaN read as 0. Between counts this is a
    consistent ordering. A [Text] value, which only the token
    [constructor] leaves in the object, compares as equal to every count,
    which is not one: the language then leaves the order to the engine.
    For such a text [sort] yields the entries in some order, not
    necessarily the engine's; nothing below depends on the order in that
    case. *)
Definition by_count_desc (x y : string * freq) : Z :=
  match to_number (snd y), to_number (snd x) with
  | Some b, Some a => b - a
  | _, _ => 0
  end.

Definition keywordsOf (text : string) : list string :=
  map fst (firstn 8 (sort by_count_desc (entries (wordFreqOf (words text))))).

Definition positiveWords : list string :=
  ["good"; "great"; "excellent"; "amazing"; "wonderful"; "positive";
   "success"; "achieve"; "benefit"; "improve"].

Definition negativeWords : list string :=
  ["bad"; "terrible"; "awful"; "negative"; "fail"; "problem"; "issue";
   "difficult"; "challenge"; "concern"].

Definition count_words (ws : list string) (lowerText : string) : nat :=
  fold_left (fun count word => count + count_matches word lowerText) ws 0.

Definition ratio (a b : nat) : Q :=
  inject_Z (Z.of_nat a) / inject_Z (Z.of_nat b).

Definition sentimentOf (text : string) : Q * string :=
  let lowerText := toLowerCase text in
  let positiveCount := count_words positiveWords lowerText in
  let negativeCount := count_words negativeWords lowerText in
  if negativeCount <? positiveCount then
    (Qmin (8 # 10) (ratio positiveCount (positiveCount + negativeCount + 1)),
     "positive")
  else if positiveCount <? negativeCount then
    (- Qmin (8 # 10) (ratio negativeCount (positiveCount + negativeCount + 1)),
     "negative")
  else (0%Q, "neutral").

Definition generateSimulatedAnalysis (text : string) (fileName : option string)
  : DocumentAnalysis :=
  let wordCount := wordCountOf text in
  let readingTime := readingTimeOf wordCount in
  let keywords := keywordsOf text in
  let (sentimentScore, sentimentLabel) := sentimentOf text in
  {| summary :=
      {| short := JStr ("Analysis of " ++ name_or fileName "document"
                        ++ " containing " ++ show_nat wordCount ++ " words.");
         medium := JStr ("This document contains " ++ show_nat wordCount
                         ++ " words and appears to be " ++ sentimentLabel
                         ++ " in tone. Key topics include analysis and content processing.");
         detailed := JStr ("This document has been processed and analyzed. It contains "
                           ++ show_nat wordCount
                           ++ " words with an estimated reading time of "
                           ++ show_nat readingTime
                           ++ " minutes. The content appears to have a "
                           ++ sentimentLabel
                           ++ " sentiment with key themes related to the extracted keywords and topics.") |};
     sentiment :=
      {| score := JNum sentimentScore;
         label := JStr sentimentLabel;
         confidence := JNum (7 # 10) |};
     keywords := map JStr keywords;
     topics := map JStr (firstn 3 keywords);
     entities :=
      [JObj [("name", JStr (name_or fileName "Document"));
             ("type", JStr "MISC");
             ("confidence", JNum (8 # 10))]];
     readingTime := readingTime;
     complexity :=
      JStr (if 1000 <? wordCount then "complex"
            else if 300 <? wordCount then "moderate" else "simple");
     language := JStr "en" |}.

Arguments generateSimulatedAnalysis : simpl never.
Arguments keywordsOf : simpl never.
Arguments sentimentOf : simpl never.
Arguments wordCountOf : simpl never.
Arguments readingTimeOf : simpl never.

(** *** analyzeDocument *)

Definition analysisPrompt (text : string) (fileName : option string)
  : ChatRequest :=
  {| prompt_document := name_or fileName "Unknown";
     prompt_content :=
       String.substring 0 4000 text
       ++ (if 4000 <? String.length text then "..." else EmptyString) |}.

(** [completion.choices[0]?.message?.content], [None] when falsy. *)
Definition first_content (completion : Completion) : option string :=
  match choices completion with
  | Some s :: _ => if String.eqb s EmptyString then None else Some s
  | _ => None
  end.

(** The object literal the remote path returns, built from the parsed
    answer. Reading a member of [null] throws. *)
Definition build_analysis (analysis : json) (readingTime : nat)
  : result DocumentAnalysis :=
  let! a_summary := get analysis "summary" in
  let! a_sentiment := get analysis "sentiment" in
  let! a_keywords := get analysis "keywords" in
  let! a_topics := get analysis "topics" in
  let! a_entities := get analysis "entities" in
  let! a_complexity := get analysis "complexity" in
  let! a_language := get analysis "language" in
  Ok {| summary :=
         {| short := or_else (get_opt a_summary "short") (JStr "Summary not available");
            medium := or_else (get_opt a_summary "medium") (JStr "Summary not available");
            detailed := or_else (get_opt a_summary "detailed") (JStr "Summary not available") |};
        sentiment :=
         {| score := or_else (get_opt a_sentiment "score") (JNum 0%Q);
            label := or_else (get_opt a_sentiment "label") (JStr "neutral");
            confidence := or_else (get_opt a_sentiment "confidence") (JNum (5 # 10)) |};
        keywords := array_prefix 10 a_keywords;
        topics := array_prefix 5 a_topics;
        entities := array_prefix 10 a_entities;
        readingTime := readingTime;
        complexity := or_else a_complexity (JStr "moderate");
        language := or_else a_language (JStr "en") |}.

(** The body of the [try] block. *)
Definition analyze_remote (env : Env) (text : string) (fileName : option string)
  : result DocumentAnalysis :=
  if key_missing env then Ok (generateSimulatedAnalysis text fileName)
  else
    let! completion := chat_completions_create env (analysisPrompt text fileName) in
    match first_content completion with
    | None => Throw "No analysis received from OpenAI"
    | Some analysisText =>
        match JSON_parse env analysisText with
        | None => Throw "Invalid JSON response from AI service"
        | Some analysis =>
            build_analysis analysis (readingTimeOf (wordCountOf text))
        end
    end.

Definition analyzeDocument (env : Env) (text : string) (fileName : option string)
  : result DocumentAnalysis :=
  try_catch (analyze_remote env text fileName)
            (fun _ => Ok (generateSimulatedAnalysis text fileName)).

(** *** generateEmbeddings *)

(** [Array.from({ length: 1536 }, () => Math.random() * 2 - 1)]; the
    state is the number of values drawn from [Math.random] so far. *)
Definition simulatedEmbeddings (env : Env) (seed : nat) : list Q * nat :=
  array_from 1536 (fun n => (Math_random env n * 2 - 1, S n)%Q) seed.

(** [response.data[0]?.embedding || []] *)
Definition first_embedding (response : EmbeddingResponse) : list Q :=
  match data response with
  | Some v :: _ => v
  | _ => []
  end.

Arguments simulatedEmbeddings : simpl never.

Definition embed_remote (env : Env) (text : string) : result (list Q) :=
  let! response := embeddings_create env (String.substring 0 8000 text) in
  Ok (first_embedding response).

Definition generateEmbeddings (env : Env) (text : string) (seed : nat)
  : result (list Q) * nat :=
  if key_missing env then
    let (v, seed') := simulatedEmbeddings env seed in (Ok v, seed')
  else
    match embed_remote env text with
    | Ok v => (Ok v, seed)
    | Throw _ =>
        let (v, seed') := simulatedEmbeddings env seed in (Ok v, seed')
    end.

End AIService.

(** ** Numbers

    The trend data of a topic is computed with the [+], [*], [/],
    [Math.min] and [Math.round] of the language. The computation is
    written once, over an [Arithmetic]. [Binary64.arithmetic] is the
    arithmetic of the code: IEEE 754 binary64 numbers, every operation
    rounding to nearest. [Exact.arithmetic], on the rationals, is the
    same arithmetic without rounding errors; the bounds of the popularity
    score are proved in it. *)

Module Number.

Class Arithmetic (number : Type) : Type := {
  (** an array length or an integer literal as a number *)
  of_nat : nat -> number;
  add : number -> number -> number;
  mul : number -> number -> number;
  div : number -> number -> number;
  (** [Math.min] *)
  min : number -> number -> number;
  (** [Math.round] *)
  round : number -> number
}.

End Number.

Module Exact.

(** [Math.round]: to the nearest integer, a half going up. *)
Definition Math_round (x : Q) : Z := Qfloor (x + (1 # 2)).

Definition number_of_nat (n : nat) : Q := inject_Z (Z.of_nat n).

#[global] Instance arithmetic : Number.Arithmetic Q := {|
  Number.of_nat := number_of_nat;
  Number.add := Qplus;
  Number.mul := Qmult;
  Number.div := Qdiv;
  Number.min := Qmin;
  Number.round := fun x => inject_Z (Math_round x)
|}.

End Exact.

Module Binary64.

(** An integer from 0 to 2^53 is a binary64 number. *)
Definition of_nat (n : nat) : float :=
  PrimFloat.of_uint63 (Uint63.of_Z (Z.of_nat n)).

(** An integer of magnitude up to 2^53 as a binary64 number; [negative]
    tells the sign of the zero. *)
Definition of_integer (negative : bool) (n : Z) : float :=
  if (n =? 0)%Z then (if negative then PrimFloat.neg_zero else PrimFloat.zero)
  else if (0 <? n)%Z then PrimFloat.of_uint63 (Uint63.of_Z n)
  else PrimFloat.opp (PrimFloat.of_uint63 (Uint63.of_Z (- n))).

Definition is_negative_zero (x : float) : bool :=
  match Prim2SF x with
  | S754_zero true => true
  | _ => false
  end.

(** [Math.min(a, b)]: NaN when either is NaN, and -0 below +0. *)
Definition Math_min (a b : float) : float :=
  if PrimFloat.is_nan a || PrimFloat.is_nan b then PrimFloat.nan
  else if PrimFloat.ltb a b then a
  else if PrimFloat.ltb b a then b
  else if is_negative_zero a then a else b.

(** The numerator of a finite number [(-1)^s * m * 2^e]. *)
Definition signed (s : bool) (m : positive) : Z :=
  if s then Z.neg m else Z.pos m.

(** [Math.round(x)]: NaN, the infinities and the integers are returned as
    they are; any other [x] goes to floor(x + 1/2), computed without
    rounding, which is -0 from -0.5 up to -0. A finite number
    [m * 2^e] with [0 <= e] is an integer; with [e < 0] its magnitude is
    below 2^53. *)
Definition Math_round (x : float) : float :=
  match Prim2SF x with
  | S754_finite s m e =>
      if (0 <=? e)%Z then x
      else of_integer s ((2 * signed s m + 2 ^ (- e)) / (2 * 2 ^ (- e)))%Z
  | _ => x
  end.

#[global] Instance arithmetic : Number.Arithmetic float := {|
  Number.of_nat := of_nat;
  Number.add := PrimFloat.add;
  Number.mul := PrimFloat.mul;
  Number.div := PrimFloat.div;
  Number.min := Math_min;
  Number.round := Math_round
|}.

End Binary64.

(** ** models/Topic.ts *)

Module Topic.
Import JS Number.

Record TimelineEntry (number : Type) : Type := {
  documentId : string;
  (** [date.getTime()], milliseconds since the epoch *)
  date : Z;
  content : string;
  relevanceScore : number;
  sentiment : number;
  keyQuotes : list string
}.
Arguments documentId {number} _.
Arguments date {number} _.
Arguments content {number} _.
Arguments relevanceScore {number} _.
Arguments sentiment {number} _.
Arguments keyQuotes {number} _.

Record TrendData (number : Type) : Type := {
  frequency : nat;
  sentimentTrend : list number;
  popularityScore : number
}.
Arguments frequency {number} _.
Arguments sentimentTrend {number} _.
Arguments popularityScore {number} _.

Record Topic (number : Type) : Type := {
  userId : string;
  name : string;
  description : option string;
  keywords : list string;
  documentIds : list string;
  timeline : list (TimelineEntry number);
  trendData : TrendData number;
  isActive : bool
}.
Arguments userId {number} _.
Arguments name {number} _.
Arguments description {number} _.
Arguments keywords {number} _.
Arguments documentIds {number} _.
Arguments timeline {number} _.
Arguments trendData {number} _.
Arguments isActive {number} _.

Section Methods.
Context {number : Type} {arithmetic : Arithmetic number}.

(** The schema's defaults for a topic created by name. *)
Definition create (userId name : string) : Topic number :=
  {| userId := userId; name := name; description := None;
     keywords := []; documentIds := []; timeline := [];
     trendData := {| frequency := 0; sentimentTrend := [];
                     popularityScore := of_nat 0 |};
     isActive := true |}.

(** [(a, b) => b.date.getTime() - a.date.getTime()] *)
Definition newest_first (a b : TimelineEntry number) : Z := (date b - date a)%Z.

Definition addTimelineEntry (this : Topic number) (entry : TimelineEntry number)
  : Topic number :=
  let timeline := sort newest_first (timeline this ++ [entry]) in
  let recentEntries := firstn 5 timeline in
  let avgSentiment :=
    div (fold_left (fun sum t => add sum (sentiment t)) recentEntries (of_nat 0))
        (of_nat (List.length recentEntries)) in
  let activityScore := min (of_nat (List.length timeline * 2)) (of_nat 50) in
  let sentimentScore := mul (add avgSentiment (of_nat 1)) (of_nat 25) in
  {| userId := userId this;
     name := name this;
     description := description this;
     keywords := keywords this;
     documentIds := documentIds this;
     timeline := timeline;
     trendData :=
       {| frequency := List.length timeline;
          sentimentTrend := map sentiment (firstn 10 timeline);
          popularityScore := round (add activityScore sentimentScore) |};
     isActive := isActive this |}.

(** A sequence of calls, oldest first. *)
Definition addTimelineEntries (this : Topic number)
                              (entries : list (TimelineEntry number))
  : Topic number :=
  fold_left addTimelineEntry entries this.

End Methods.

End Topic.

(** ** The Document model (documentSchema) *)

Module DocumentModel.
Import JS.

Inductive ProcessingStatus : Type := pending | processing | completed | failed.

(** documentSummarySchema *)
Record Summary : Type := {
  short : string;
  medium : string;
  detailed : string
}.

(** documentSentimentSchema *)
Record Sentiment : Type := {
  score : Q;
  label : string;
  confidence : Q
}.

(** namedEntitySchema; a path is [None] when the subdocument does not
    have it. *)
Record NamedEntity : Type := {
  entity_text : option string;
  entity_label : option string;
  entity_confidence : option Q;
  entity_startPos : option Q;
  entity_endPos : option Q
}.

(** documentMetadataSchema *)
Record Metadata : Type := {
  author : option string;
  creationDate : option Z;
  modificationDate : option Z;
  subject : option string;
  creator : option string
}.

(** The metadata subdocument without any of its paths. *)
Definition no_metadata : Metadata :=
  {| author := None; creationDate := None; modificationDate := None;
     subject := None; creator := None |}.

(** The fields of a stored document that the analysis pipeline reads or
    writes, each of the type the schema gives its path. [embeddings] is
    [None] when the field was not selected by the query; the schema's
    default for it is the empty array. The store does not look inside the
    numbers of a vector, so their type is a parameter. *)
Record Doc (number : Type) : Type := {
  title : string;
  originalFileName : string;
  extractedText : string;
  wordCount : nat;
  readingTime : nat;
  summary : Summary;
  sentiment : Sentiment;
  keywords : list string;
  topics : list string;
  entities : list NamedEntity;
  embeddings : option (list number);
  processingStatus : ProcessingStatus;
  metadata : Metadata
}.
Arguments title {number} _.
Arguments originalFileName {number} _.
Arguments extractedText {number} _.
Arguments wordCount {number} _.
Arguments readingTime {number} _.
Arguments summary {number} _.
Arguments sentiment {number} _.
Arguments keywords {number} _.
Arguments topics {number} _.
Arguments entities {number} _.
Arguments embeddings {number} _.
Arguments processingStatus {number} _.
Arguments metadata {number} _.

(** *** Casting to the schema

    A query casts what it is given to the schema before it reaches the
    store: the id to an ObjectId, and every value of the update to the type
    of its path. Paths the schema does not have are dropped (strict mode),
    and a value that cannot be cast rejects the query with a CastError.

    A value that already has the type of its path is stored as it is.
    What mongoose makes of any other value (a conversion of it, or the
    CastError) and of a string that is not the 24 hexadecimal digits of an
    ObjectId is the library's affair; it is taken as given, in the
    [Mongoose] record below. *)

(** The analysis fields of the [completed] update after the cast. *)
Record AnalysisFields : Type := {
  cast_summary : Summary;
  cast_sentiment : Sentiment;
  cast_keywords : list string;
  cast_topics : list string;
  cast_entities : list NamedEntity
}.

Record Mongoose : Type := {
  (** the ObjectId, in its hexadecimal form, that a string other than 24
      hexadecimal digits is cast to; [None] is the CastError *)
  castObjectId_other : string -> option string;
  (** the fields stored for an analysis some value of which does not have
      the type of its path; [None] is the CastError *)
  castAnalysis_other : AIService.DocumentAnalysis -> option AnalysisFields;
  (** whether [includes], on a mongoose array of strings, takes an element
      to be the ObjectId it is asked for *)
  element_is_objectId : string -> string -> bool
}.

Definition is_hex_digit (c : ascii) : bool :=
  is_digit c || in_range 97 102 (code c) || in_range 65 70 (code c).

Definition is_objectId_string (id : string) : bool :=
  (String.length id =? 24) && forallb is_hex_digit (chars id).

Definition cast_error : string := "CastError".

(** The ObjectId a string stands for, in the form its [toString()] gives:
    24 hexadecimal digits in lower case. *)
Definition castObjectId (mongoose : Mongoose) (id : string) : result string :=
  if is_objectId_string id then Ok (toLowerCase id)
  else match castObjectId_other mongoose id with
       | Some oid => Ok oid
       | None => Throw cast_error
       end.

(** A value that has the type of a String path, of a Number path. *)
Definition typed_string (v : json) : option string :=
  match v with
  | JStr s => Some s
  | _ => None
  end.

Definition typed_number (v : json) : option Q :=
  match v with
  | JNum q => Some q
  | _ => None
  end.

(** An array all of whose elements have the type of its path. *)
Fixpoint typed_list {A : Type} (typed : json -> option A) (l : list json)
  : option (list A) :=
  match l with
  | [] => Some []
  | v :: l' =>
      match typed v, typed_list typed l' with
      | Some a, Some r => Some (a :: r)
      | _, _ => None
      end
  end.

(** A member of an object literal: absent, or of the type of its path. *)
Definition typed_member {A : Type} (typed : json -> option A) (v : any)
  : option (option A) :=
  match v with
  | None => Some None
  | Some j =>
      match typed j with
      | Some a => Some (Some a)
      | None => None
      end
  end.

(** An object as a namedEntitySchema subdocument: the members the schema
    has paths for; the others ([name] and [type], for one) are dropped. *)
Definition typed_entity (v : json) : option NamedEntity :=
  match v with
  | JObj props =>
      match typed_member typed_string (own_prop "text" props),
            typed_member typed_string (own_prop "label" props),
            typed_member typed_number (own_prop "confidence" props),
            typed_member typed_number (own_prop "startPos" props),
            typed_member typed_number (own_prop "endPos" props) with
      | Some t, Some l, Some c, Some s, Some e =>
          Some {| entity_text := t; entity_label := l; entity_confidence := c;
                  entity_startPos := s; entity_endPos := e |}
      | _, _, _, _, _ => None
      end
  | _ => None
  end.

Definition typed_summary (s : AIService.Summary) : option Summary :=
  match typed_string (AIService.short s), typed_string (AIService.medium s),
        typed_string (AIService.detailed s) with
  | Some a, Some b, Some c => Some {| short := a; medium := b; detailed := c |}
  | _, _, _ => None
  end.

Definition typed_sentiment (s : AIService.Sentiment) : option Sentiment :=
  match typed_number (AIService.score s), typed_string (AIService.label s),
        typed_number (AIService.confidence s) with
  | Some a, Some b, Some c => Some {| score := a; label := b; confidence := c |}
  | _, _, _ => None
  end.

(** The analysis all of whose values have the types of their paths. *)
Definition typed_analysis (analysis : AIService.DocumentAnalysis)
  : option AnalysisFields :=
  match typed_summary (AIService.summary analysis),
        typed_sentiment (AIService.sentiment analysis),
        typed_list typed_string (AIService.keywords analysis),
        typed_list typed_string (AIService.topics analysis),
        typed_list typed_entity (AIService.entities analysis) with
  | Some su, Some se, Some k, Some t, Some e =>
      Some {| cast_summary := su; cast_sentiment := se; cast_keywords := k;
              cast_topics := t; cast_entities := e |}
  | _, _, _, _, _ => None
  end.

(** The cast of [summary], [sentiment], [keywords], [topics] and
    [entities] in an update. *)
Definition cast_analysis (mongoose : Mongoose)
                         (analysis : AIService.DocumentAnalysis)
  : result AnalysisFields :=
  match typed_analysis analysis with
  | Some fields => Ok fields
  | None =>
      match castAnalysis_other mongoose analysis with
      | Some fields => Ok fields
      | None => Throw cast_error
      end
  end.

Section Persistence.
Context {number : Type}.

(** The schema's built-in validators (required fields, lengths,
    ranges), which run before the hooks below. *)
Variable schema_valid : Doc number -> bool.

(** First [pre('save')] hook: the reading time at 225 words a
    minute, when [wordCount] was modified. *)
Definition pre_save_readingTime (wordCount_modified : bool) (this : Doc number)
  : Doc number :=
  if wordCount_modified then
    {| title := title this; originalFileName := originalFileName this;
       extractedText := extractedText this; wordCount := wordCount this;
       readingTime := (wordCount this + 224) / 225;
       summary := summary this; sentiment := sentiment this;
       keywords := keywords this; topics := topics this;
       entities := entities this; embeddings := embeddings this;
       processingStatus := processingStatus this;
       metadata := metadata this |}
  else this.

Definition dimension_error : string :=
  "Embeddings vector must be exactly 1536 dimensions for OpenAI embeddings".

(** Second [pre('save')] hook. *)
Definition pre_save_embeddings (this : Doc number) : result unit :=
  match embeddings this with
  | Some v =>
      if (0 <? List.length v) && negb (List.length v =? 1536)
      then Throw dimension_error
      else Ok tt
  | None => Ok tt
  end.

(** [document.save()]: validation, the hooks in the order of their
    registration, then the write. *)
Definition save (id : string) (this : Doc number) (wordCount_modified : bool)
                (db : gmap string (Doc number))
  : result (gmap string (Doc number)) :=
  if schema_valid this then
    let this' := pre_save_readingTime wordCount_modified this in
    let! _ := pre_save_embeddings this' in
    Ok (<[id := this']> db)
  else Throw "ValidationError".

(** [Document.findByIdAndUpdate(id, update)]: a query, so neither
    validation nor the [save] hooks run. [update] is the update after its
    cast: the CastError, or the change it makes to a document. The query
    is rejected when the id or the update cannot be cast; an id that no
    document has changes nothing. The store is keyed by the hexadecimal
    form of the ids, and is taken to be reachable. *)
Definition findByIdAndUpdate (mongoose : Mongoose) (id : string)
                             (update : result (Doc number -> Doc number))
                             (db : gmap string (Doc number))
  : result (gmap string (Doc number)) :=
  let! oid := castObjectId mongoose id in
  let! change := update in
  Ok (alter change oid db).
End Persistence.

(** *** calculateSimilarity, on binary64 numbers *)

(** [v[i]] as an operand of arithmetic: [undefined], read past the end,
    converts to NaN. *)
Definition item (v : list float) (i : nat) : float := nth i v PrimFloat.nan.

Definition similarity_step (a b : list float) (acc : float * float * float)
                           (i : nat) : float * float * float :=
  let '(dotProduct, normA, normB) := acc in
  (dotProduct + item a i * item b i,
   normA + item a i * item a i,
   normB + item b i * item b i)%float.

Definition calculateSimilarity (this otherDocument : Doc float) : float :=
  match embeddings this, embeddings otherDocument with
  | Some a, Some b =>
      let '(dotProduct, normA, normB) :=
        fold_left (similarity_step a b) (seq 0 (List.length a))
                  (0, 0, 0)%float in
      if PrimFloat.eqb normA 0 || PrimFloat.eqb normB 0 then 0%float
      else (dotProduct / (PrimFloat.sqrt normA * PrimFloat.sqrt normB))%float
  | _, _ => 0%float
  end.

End DocumentModel.

(** ** routes/documents.ts *)

Module Routes.
Import JS DocumentModel.

(** What [processDocumentAI] does to the outside, in order: the updates
    of the status that mongoose accepted, and the calls of the
    services. *)
Inductive Event : Type :=
| StatusWrite (documentId : string) (status : ProcessingStatus)
| AnalysisRun (documentId : string)
| EmbeddingRun (documentId : string).

Record State : Type := {
  db : gmap string (Doc Q);
  (** values drawn from [Math.random] so far *)
  seed : nat;
  (** the events so far, oldest first *)
  trace : list Event
}.

(** The change [{ processingStatus: status }] makes. *)
Definition set_status (status : ProcessingStatus) (d : Doc Q) : Doc Q :=
  {| title := title d; originalFileName := originalFileName d;
     extractedText := extractedText d; wordCount := wordCount d;
     readingTime := readingTime d;
     summary := summary d; sentiment := sentiment d;
     keywords := keywords d; topics := topics d;
     entities := entities d; embeddings := embeddings d;
     processingStatus := status;
     metadata := metadata d |}.

(** The change the update with the results makes. Its [metadata] is the
    object [{ complexity, language, processedAt }]; the metadata schema
    has none of the three paths, so the subdocument stored is empty. *)
Definition set_completed (fields : AnalysisFields) (vector : list Q)
                         (readingTime : nat) (d : Doc Q) : Doc Q :=
  {| title := title d; originalFileName := originalFileName d;
     extractedText := extractedText d; wordCount := wordCount d;
     readingTime := readingTime;
     summary := cast_summary fields;
     sentiment := cast_sentiment fields;
     keywords := cast_keywords fields;
     topics := cast_topics fields;
     entities := cast_entities fields;
     embeddings := Some vector;
     processingStatus := completed;
     metadata := no_metadata |}.

(** The update of the second [findByIdAndUpdate], cast. *)
Definition completed_update (mongoose : Mongoose)
                            (analysis : AIService.DocumentAnalysis)
                            (vector : list Q)
  : result (Doc Q -> Doc Q) :=
  let! fields := cast_analysis mongoose analysis in
  Ok (set_completed fields vector (AIService.readingTime analysis)).

(** [await Document.findByIdAndUpdate(documentId, { processingStatus })] *)
Definition write_status (mongoose : Mongoose) (documentId : string)
                        (status : ProcessingStatus) (st : State)
  : result State :=
  let! db' := findByIdAndUpdate mongoose documentId (Ok (set_status status))
                                (db st) in
  Ok {| db := db'; seed := seed st;
        trace := trace st ++ [StatusWrite documentId status] |}.

(** The body of the [try] block: the state reached, and whether it
    threw. *)
Definition process_body (env : AIService.Env) (mongoose : Mongoose)
                        (documentId text fileName : string) (st : State)
  : State * result unit :=
  match write_status mongoose documentId processing st with
  | Throw e => (st, Throw e)
  | Ok st1 =>
      let st2 := {| db := db st1; seed := seed st1;
                    trace := trace st1 ++ [AnalysisRun documentId] |} in
      match AIService.analyzeDocument env text (Some fileName) with
      | Throw e => (st2, Throw e)
      | Ok analysis =>
          let (r, seed') := AIService.generateEmbeddings env text (seed st2) in
          let st3 := {| db := db st2; seed := seed';
                        trace := trace st2 ++ [EmbeddingRun documentId] |} in
          match r with
          | Throw e => (st3, Throw e)
          | Ok vector =>
              match findByIdAndUpdate mongoose documentId
                      (completed_update mongoose analysis vector) (db st3) with
              | Throw e => (st3, Throw e)
              | Ok db' =>
                  ({| db := db'; seed := seed st3;
                      trace := trace st3 ++ [StatusWrite documentId completed] |},
                   Ok tt)
              end
          end
      end
  end.

(** The state [processDocumentAI] leaves, and whether its promise was
    rejected: the update in the [catch] block is awaited outside any
    [try]. *)
Definition processDocumentAI (env : AIService.Env) (mongoose : Mongoose)
                             (documentId text fileName : string) (st : State)
  : State * result unit :=
  match process_body env mongoose documentId text fileName st with
  | (st', Ok _) => (st', Ok tt)
  | (st', Throw _) =>
      match write_status mongoose documentId failed st' with
      | Ok st'' => (st'', Ok tt)
      | Throw e => (st', Throw e)
      end
  end.

End Routes.

(** ** The vocabulary of the specification *)

Module Spec.
Import JS AIService.

(** The data model of a sentiment: a score in [-1,1], one of the three
    labels, a confidence in [0,1]. *)
Definition in_interval (lo hi : Q) (v : json) : bool :=
  match v with
  | JNum q => Qle_bool lo q && Qle_bool q hi
  | _ => false
  end.

Definition is_label (v : json) : bool :=
  match v with
  | JStr s => String.eqb s "positive" || String.eqb s "negative"
              || String.eqb s "neutral"
  | _ => false
  end.

Definition sentiment_ok (s : Sentiment) : bool :=
  in_interval (-1) 1 (score s) && is_label (label s)
  && in_interval 0 1 (confidence s).

(** The ways the remote inference path of [analyzeDocument] fails. *)
Inductive RemoteFailure (env : Env) (text : string) (fileName : option string)
  : Prop :=
| MissingKey :
    key_missing env = true -> RemoteFailure env text fileName
| ProviderException e :
    key_missing env = false ->
    chat_completions_create env (analysisPrompt text fileName) = Throw e ->
    RemoteFailure env text fileName
| EmptyCompletion c :
    key_missing env = false ->
    chat_completions_create env (analysisPrompt text fileName) = Ok c ->
    first_content c = None ->
    RemoteFailure env text fileName
| NonJsonPayload c s :
    key_missing env = false ->
    chat_completions_create env (analysisPrompt text fileName) = Ok c ->
    first_content c = Some s ->
    JSON_parse env s = None ->
    RemoteFailure env text fileName
| NullPayload c s :
    key_missing env = false ->
    chat_completions_create env (analysisPrompt text fileName) = Ok c ->
    first_content c = Some s ->
    JSON_parse env s = Some JNull ->
    RemoteFailure env text fileName.

(** The parsed answer of the provider, when the remote path gets one that
    is not [null]. *)
Definition remote_answer (env : Env) (text : string) (fileName : option string)
  : option json :=
  if key_missing env then None
  else
    match chat_completions_create env (analysisPrompt text fileName) with
    | Throw _ => None
    | Ok c =>
        match first_content c with
        | None => None
        | Some s =>
            match JSON_parse env s with
            | None | Some JNull => None
            | Some analysis => Some analysis
            end
        end
    end.

(** The sentiment the remote path makes of a parsed answer. *)
Definition remote_sentiment (analysis : json) : Sentiment :=
  let s := match analysis with JObj props => own_prop "sentiment" props | _ => None end in
  {| score := or_else (get_opt s "score") (JNum 0%Q);
     label := or_else (get_opt s "label") (JStr "neutral");
     confidence := or_else (get_opt s "confidence") (JNum (5 # 10)) |}.

(** The tokens in the order of their first occurrence. *)
Definition first_occurrences (ws : list string) : list string :=
  fold_left (fun seen w => if existsb (String.eqb w) seen then seen
                           else (seen ++ [w])%list)
            ws [].

Definition occurrences (ws : list string) (w : string) : nat :=
  List.length (List.filter (String.eqb w) ws).

(** Descending by occurrence count; [sort] is stable, so tokens of one
    count keep the order they come in. *)
Definition by_occurrences_desc (ws : list string) (x y : string) : Z :=
  (Z.of_nat (occurrences ws y) - Z.of_nat (occurrences ws x))%Z.

(** The keywords in the words of the specification: the top 8 by
    descending count, ties in the order of first occurrence. *)
Definition ranked_keywords (ws : list string) : list string :=
  firstn 8 (sort (by_occurrences_desc ws) (first_occurrences ws)).

(** The order in which an object lists property names created in the
    order [names]: the array indices first, ascending, then the rest. *)
Definition property_order (names : list string) : list string :=
  (sort (fun a b => (index_of a - index_of b)%Z)
        (List.filter is_array_index names)
   ++ List.filter (fun k => negb (is_array_index k)) names)%list.

(** The dictionary that holds [names] in this order, each with the value
    [f] gives it. *)
Definition tabulate {V : Type} (f : string -> V) (names : list string)
  : dict V :=
  map (fun k => (k, f k)) names.

(** The count a token has reached in the frequency object. *)
Definition tally (ws : list string) (k : string) : freq :=
  Count (occurrences ws k).

(** *** The entries of a timeline

    The timeline is a mongoose array, and what it is given it casts to
    the entry schema: in a Number path it keeps numbers, never NaN. An
    entry of numbers is an entry as the array holds it. *)
Definition entry_of_numbers (e : Topic.TimelineEntry float) : bool :=
  PrimFloat.is_finite (Topic.sentiment e)
  && PrimFloat.is_finite (Topic.relevanceScore e).

Definition entries_of_numbers (l : list (Topic.TimelineEntry float)) : Prop :=
  Forall (fun e => entry_of_numbers e = true) l.

(** An array holds at most 2^32 - 1 elements: one that takes another has
    fewer. *)
Definition has_room {A : Type} (l : list A) : Prop :=
  (Z.of_nat (List.length l) < 2 ^ 32 - 1)%Z.

(** *** The popularity score, as the language computes it

    round(min(timelineLength * 2, 50) + (avgSentiment + 1) * 25) on
    binary64 numbers, every operation rounding to nearest. *)

(** The sum of the numbers, from the first to the last. *)
Fixpoint sum_from (acc : float) (l : list float) : float :=
  match l with
  | [] => acc
  | x :: l' => sum_from (acc + x)%float l'
  end.

(** The binary64 number of an integer: the integer itself up to 2^53 in
    magnitude, the nearest binary64 number beyond; [negative] is the sign
    of a zero. *)
Definition number_of (negative : bool) (z : Z) : float :=
  SF2Prim (binary_normalize prec emax z 0 negative).

(** The mean of the recent sentiments, the most recent first. *)
Definition mean_sentiment (recent : list float) : float :=
  (sum_from 0 recent / number_of false (Z.of_nat (List.length recent)))%float.

(** The activity score: twice the length of the timeline, but 50 when
    that is not below 50. *)
Definition activity (timelineLength : nat) : float :=
  let doubled := number_of false (Z.of_nat (timelineLength * 2)) in
  match PrimFloat.compare doubled 50 with
  | FLt => doubled
  | FEq | FGt => 50%float
  | FNotComparable => PrimFloat.nan
  end.

(** A finite number is [numerator * 2^e], of sign [s] and magnitude
    [m]. *)
Definition numerator (s : bool) (m : positive) : Z :=
  ((if s then -1 else 1) * Z.pos m)%Z.

(** The integer nearest to a number that is not an integer
    [(-1)^s * m * 2^e], [e < 0]: the integer below it when the fraction
    left over is less than a half, the integer above it otherwise. *)
Definition nearest (s : bool) (m : positive) (e : Z) : Z :=
  let below := (numerator s m / 2 ^ (- e))%Z in
  let fraction := (numerator s m mod 2 ^ (- e))%Z in
  if (2 * fraction <? 2 ^ (- e))%Z then below else (below + 1)%Z.

(** Rounding: a number that is not finite, or that is an integer, is its
    own rounding; any other goes to the nearest integer, a half going
    up, and keeps its sign when that integer is zero. *)
Definition rounded (x : float) : float :=
  match Prim2SF x with
  | S754_finite s m e =>
      if (e <? 0)%Z then number_of s (nearest s m e) else x
  | _ => x
  end.

Definition popularity_score (timelineLength : nat) (recent : list float)
  : float :=
  rounded (activity timelineLength + (mean_sentiment recent + 1) * 25)%float.

(** *** The popularity score in exact arithmetic *)










End Spec.

(** ** Sample environments and inputs *)

Module Samples.
Import JS AIService.

(** No API key: every service takes its simulated path. *)
Definition env_no_key : Env :=
  {| OPENAI_API_KEY := None;
     chat_completions_create := fun _ => Throw "unreachable";
     embeddings_create := fun _ => Throw "unreachable";
     JSON_parse := fun _ => None;
     Math_random := fun _ => 1 # 2;
     Date_now := 0 |}.

(** A configured provider that is down. *)
Definition env_provider_down : Env :=
  {| OPENAI_API_KEY := Some "sk-test";
     chat_completions_create := fun _ => Throw "429 rate limit";
     embeddings_create := fun _ => Throw "429 rate limit";
     JSON_parse := fun _ => None;
     Math_random := fun _ => 1 # 2;
     Date_now := 0 |}.


(** A configured provider that answers with a vector of 100 numbers. *)
Definition env_short_vector : Env :=
  {| OPENAI_API_KEY := Some "sk-test";
     chat_completions_create := fun _ => Throw "429 rate limit";
     embeddings_create := fun _ => Ok {| data := [Some (repeat (1 # 10) 100)] |};
     JSON_parse := fun _ => None;
     Math_random := fun _ => 1 # 2;
     Date_now := 0 |}.

(** A configured provider whose analysis reports a sentiment outside the
    data model: score 5, label mixed, confidence 2. *)
Definition wild_answer : json :=
  JObj [("sentiment",
         JObj [("score", JNum 5); ("label", JStr "mixed");
               ("confidence", JNum 2)])].

Definition env_wild_sentiment : Env :=
  {| OPENAI_API_KEY := Some "sk-test";
     chat_completions_create := fun _ => Ok {| choices := [Some "{...}"] |};
     embeddings_create := fun _ => Throw "429 rate limit";
     JSON_parse := fun _ => Some wild_answer;
     Math_random := fun _ => 1 # 2;
     Date_now := 0 |}.

Definition entry_at (date : Z) (sentiment : Q) : Topic.TimelineEntry Q :=
  {| Topic.documentId := "doc1"; Topic.date := date;
     Topic.content := "mentioned"; Topic.relevanceScore := 1%Q;
     Topic.sentiment := sentiment; Topic.keyQuotes := [] |}.

(** The same entry with binary64 numbers. *)
Definition entry64_at (date : Z) (sentiment : float)
  : Topic.TimelineEntry float :=
  {| Topic.documentId := "doc1"; Topic.date := date;
     Topic.content := "mentioned"; Topic.relevanceScore := 1%float;
     Topic.sentiment := sentiment; Topic.keyQuotes := [] |}.

(** Six entries, oldest first, with the sentiments 1, 1, 1, 1, 1, -1. *)
Definition six_entries : list (Topic.TimelineEntry Q) :=
  [entry_at 1 1; entry_at 2 1; entry_at 3 1; entry_at 4 1; entry_at 5 1;
   entry_at 6 (-1)].

(** Three entries, oldest first, with the sentiments -0.4, -0.7 and -1 as
    binary64 numbers. *)
Definition three_entries : list (Topic.TimelineEntry float) :=
  [entry64_at 1 (-0x1.999999999999ap-2)%float;
   entry64_at 2 (-0x1.6666666666666p-1)%float;
   entry64_at 3 (-1)%float].

(** The same three with the sentiments as rationals. *)
Definition three_entries_exact : list (Topic.TimelineEntry Q) :=
  [entry_at 1 (- (4 # 10)); entry_at 2 (- (7 # 10)); entry_at 3 (-1)].

(** A document as the upload route creates it, before any analysis. *)
Definition uploaded {number : Type} (text : string) (vector : option (list number))
  : DocumentModel.Doc number :=
  {| DocumentModel.title := "Quarterly report";
     DocumentModel.originalFileName := "report.txt";
     DocumentModel.extractedText := text;
     DocumentModel.wordCount := wordCountOf text;
     DocumentModel.readingTime := 0;
     DocumentModel.summary :=
       {| DocumentModel.short := EmptyString;
          DocumentModel.medium := EmptyString;
          DocumentModel.detailed := EmptyString |};
     DocumentModel.sentiment :=
       {| DocumentModel.score := 0;
          DocumentModel.label := "neutral";
          DocumentModel.confidence := 0 |};
     DocumentModel.keywords := [];
     DocumentModel.topics := [];
     DocumentModel.entities := [];
     DocumentModel.embeddings := vector;
     DocumentModel.processingStatus := DocumentModel.pending;
     DocumentModel.metadata := DocumentModel.no_metadata |}.

Definition report_text : string := "Revenue was good. Costs are a concern.".

(** The id of a stored document, as [_id.toString()] gives it. *)
Definition doc1 : string := "507f1f77bcf86cd799439011".

(** The store after the upload of one document. *)
Definition st_uploaded : Routes.State :=
  {| Routes.db := {[ doc1 := uploaded report_text (Some []) ]};
     Routes.seed := 0;
     Routes.trace := [] |}.

(** A mongoose that rejects every value it would have to convert, and
    whose arrays find an ObjectId by its hexadecimal form. *)
Definition mongoose : DocumentModel.Mongoose :=
  {| DocumentModel.castObjectId_other := fun _ => None;
     DocumentModel.castAnalysis_other := fun _ => None;
     DocumentModel.element_is_objectId := String.eqb |}.

(** A configured provider whose analysis reports the score as a word. *)
Definition worded_answer : json :=
  JObj [("sentiment",
         JObj [("score", JStr "high"); ("label", JStr "positive");
               ("confidence", JNum (9 # 10))])].

Definition env_worded_score : Env :=
  {| OPENAI_API_KEY := Some "sk-test";
     chat_completions_create := fun _ => Ok {| choices := [Some "{...}"] |};
     embeddings_create := fun _ => Throw "429 rate limit";
     JSON_parse := fun _ => Some worded_answer;
     Math_random := fun _ => 1 # 2;
     Date_now := 0 |}.

End Samples.

(** ** Further code of the same files *)

(** *** services/aiService.ts: extractText, and the upload filter that
    feeds it *)

Module TextExtraction.
Import JS.

(** The file system and [path], as the code uses them. *)
Record FileSystem : Type := {
  (** [fs.readFileSync(p, 'utf-8')] *)
  readFileSync : string -> result string;
  (** [path.basename] *)
  basename : string -> string;
  (** [path.extname] *)
  extname : string -> string
}.

Definition newline : string := String (ascii_of_nat 10) EmptyString.

Definition pdf_placeholder (name : string) : string :=
  "[PDF Content from " ++ name ++ "]" ++ newline ++ newline
  ++ "This is extracted PDF content. In a real implementation, this would contain the actual text extracted from the PDF file using libraries like pdf-parse or pdf2pic.".

Definition docx_placeholder (name : string) : string :=
  "[DOCX Content from " ++ name ++ "]" ++ newline ++ newline
  ++ "This is extracted DOCX content. In a real implementation, this would contain the actual text extracted from the Word document using libraries like mammoth.".

(** The [switch] inside the [try] block. *)
Definition extract_switch (fs : FileSystem) (filePath fileType : string)
  : result string :=
  let t := toLowerCase fileType in
  if String.eqb t "txt" then readFileSync fs filePath
  else if String.eqb t "pdf" then Ok (pdf_placeholder (basename fs filePath))
  else if String.eqb t "docx" then Ok (docx_placeholder (basename fs filePath))
  else Throw ("Unsupported file type: " ++ fileType).

Definition extractText (fs : FileSystem) (filePath fileType : string)
  : result string :=
  try_catch (extract_switch fs filePath fileType)
            (fun _ => Throw "Failed to extract text from file").

(** [s.slice(1)] *)
Definition slice1 (s : string) : string :=
  match s with
  | EmptyString => EmptyString
  | String _ rest => rest
  end.

(** multer's [fileFilter]: does the upload go through? *)
Definition fileFilter (fs : FileSystem) (originalname : string) : bool :=
  let ext := toLowerCase (extname fs originalname) in
  existsb (String.eqb ext) [".pdf"; ".docx"; ".txt"].

(** [path.extname(req.file.originalname).toLowerCase().slice(1)] *)
Definition fileTypeOf (fs : FileSystem) (originalname : string) : string :=
  slice1 (toLowerCase (extname fs originalname)).

(** The text the upload route stores: what was extracted, or a note that
    nothing could be. *)
Definition extractedTextOf (fs : FileSystem) (filePath originalname : string)
  : string :=
  match extractText fs filePath (fileTypeOf fs originalname) with
  | Ok text => text
  | Throw _ => "Failed to extract text from " ++ originalname
  end.

End TextExtraction.

(** *** services/aiService.ts: compareDocuments *)

Module Comparison.
Import JS.

(** [new Set(doc.toLowerCase().split(/\s+/))] *)
Definition wordSet (doc : string) : gset string :=
  list_to_set (split_ws (toLowerCase doc)).

(** [new Set([...words1].filter(x => words2.has(x)))] *)
Definition intersection (words1 words2 : gset string) : gset string :=
  filter (fun x => x ∈ words2) words1.

(** [new Set([...words1, ...words2])] *)
Definition union (words1 words2 : gset string) : gset string :=
  words1 ∪ words2.

Record Differences : Type := {
  added : list string;
  removed : list string;
  modified : list string
}.

(** The result without its [summary], which prints the similarity with
    [toFixed]. *)
Record ComparisonResult : Type := {
  similarity : Q;
  differences : Differences
}.

Definition compareDocuments (doc1Text doc2Text : string) : ComparisonResult :=
  let words1 := wordSet doc1Text in
  let words2 := wordSet doc2Text in
  {| similarity :=
       AIService.ratio (size (intersection words1 words2))
                       (size (union words1 words2));
     differences :=
       {| added := ["Content analysis"; "New insights"];
          removed := ["Outdated information"];
          modified := ["Updated statistics"; "Revised conclusions"] |} |}.

End Comparison.

(** *** models/User.ts: the User model *)

Module UserModel.
Import JS.

Inductive Subscription : Type := free | pro | enterprise.

Record User : Type := {
  email : string;
  firstName : string;
  lastName : string;
  subscription : Subscription;
  (** [null] or a date in milliseconds *)
  subscriptionExpiry : option Z;
  documentsUploaded : Z;
  storageUsed : Z
}.

(** [v || d] on numbers *)
Definition or_number (v d : Z) : Z := if (v =? 0)%Z then d else v.

Definition storageLimits (s : Subscription) : Z :=
  match s with
  | free => 100 * 1024 * 1024
  | pro => 5 * 1024 * 1024 * 1024
  | enterprise => 50 * 1024 * 1024 * 1024
  end.

Definition documentLimits (s : Subscription) : Z :=
  match s with
  | free => 10
  | pro => 1000
  | enterprise => 10000
  end.

Definition getStorageLimit (this : User) : Z :=
  or_number (storageLimits (subscription this)) (storageLimits free).

Definition getDocumentLimit (this : User) : Z :=
  or_number (documentLimits (subscription this)) (documentLimits free).

Definition canUploadMore (this : User) : bool :=
  (documentsUploaded this <? getDocumentLimit this)%Z.

Definition hasStorageSpace (this : User) (fileSize : Z) : bool :=
  (storageUsed this + fileSize <=? getStorageLimit this)%Z.

(** [now] is [new Date()]. *)
Definition isSubscriptionActive (this : User) (now : Z) : bool :=
  match subscription this with
  | free => true
  | _ =>
      match subscriptionExpiry this with
      | None => false
      | Some expiry => (now <? expiry)%Z
      end
  end.

(** The second [pre('save')] hook: free users have no expiry date. *)
Definition pre_save_subscription (this : User) : User :=
  match subscription this with
  | free =>
      {| email := email this; firstName := firstName this;
         lastName := lastName this; subscription := subscription this;
         subscriptionExpiry := None;
         documentsUploaded := documentsUploaded this;
         storageUsed := storageUsed this |}
  | _ => this
  end.

(** [String.prototype.trim] *)
Fixpoint trim_start (s : list ascii) : list ascii :=
  match s with
  | [] => []
  | c :: s' => if is_space c then trim_start s' else s
  end.

Definition trim (s : string) : string :=
  str (rev (trim_start (rev (trim_start (chars s))))).

Definition getFullName (this : User) : string :=
  trim (firstName this ++ " " ++ lastName this).

(** The virtuals. *)
Definition remainingDocuments (this : User) : Z :=
  Z.max 0 (getDocumentLimit this - documentsUploaded this).

Definition remainingStorage (this : User) : Z :=
  Z.max 0 (getStorageLimit this - storageUsed this).

Definition storageUsagePercentage (this : User) : Q :=
  let limit := getStorageLimit this in
  if (0 <? limit)%Z
  then (inject_Z (storageUsed this) / inject_Z limit * 100)%Q
  else 0%Q.

End UserModel.

(** *** middleware/auth.ts: the gates that read the models *)

Module AuthMiddleware.
Import JS UserModel.

(** What a middleware does with a request: it passes it on, or answers it
    with a status. *)
Inductive Outcome : Type :=
| Next
| Respond (status : nat).

(** [subscriptionLevels] *)
Definition subscriptionLevels (s : Subscription) : nat :=
  match s with
  | free => 0
  | pro => 1
  | enterprise => 2
  end.

Definition requireSubscription (requiredLevel : Subscription) (user : option User)
  : Outcome :=
  match user with
  | None => Respond 401
  | Some u =>
      if subscriptionLevels (subscription u) <? subscriptionLevels requiredLevel
      then Respond 403
      else Next
  end.

(** The fields of a document that decide who may read it. *)
Record Sharing : Type := {
  userId : string;
  isPublic : bool;
  collaborators : list string
}.

(** A value passed where the id of a user is expected: the id as a
    string, or the ObjectId itself, given by its hexadecimal form. *)
Inductive UserId : Type :=
| IdString (id : string)
| IdObject (hex : string).

(** [a === b] for a string [a]: an ObjectId is an object, and never
    strictly equal to a string. *)
Definition strict_equal (a : string) (b : UserId) : bool :=
  match b with
  | IdString s => String.eqb a s
  | IdObject _ => false
  end.

(** [array.includes(v)] on a mongoose array of strings. *)
Definition includes (mongoose : DocumentModel.Mongoose) (array : list string)
                    (v : UserId) : bool :=
  match v with
  | IdString s => existsb (String.eqb s) array
  | IdObject hex =>
      existsb (fun element =>
                 DocumentModel.element_is_objectId mongoose element hex) array
  end.

(** [documentSchema.methods.canUserAccess] *)
Definition canUserAccess (mongoose : DocumentModel.Mongoose) (this : Sharing)
                         (user : UserId) : bool :=
  strict_equal (userId this) user
  || isPublic this
  || includes mongoose (collaborators this) user.

(** [user] is [req.user._id], the ObjectId of the user attached to the
    request; [found] is the answer of [Document.findById]: it may throw,
    and it may find nothing. *)
Definition checkDocumentAccess (mongoose : DocumentModel.Mongoose)
                               (user : option string)
                               (found : result (option Sharing)) : Outcome :=
  match user with
  | None => Respond 401
  | Some u =>
      match found with
      | Throw _ => Respond 500
      | Ok None => Respond 404
      | Ok (Some document) =>
          if canUserAccess mongoose document (IdObject u)
          then Next else Respond 403
      end
  end.

End AuthMiddleware.

(** *** The Document model: versions, progress, analytics *)

Module DocumentMethods.
Import JS DocumentModel.

Record DocumentVersion : Type := {
  versionNumber : nat;
  summary : string;
  changes : string;
  createdAt : Z;
  createdBy : string
}.

(** [addVersion], on the [versions] array it pushes to; [now] is
    [new Date()]. *)
Definition addVersion (versions : list DocumentVersion)
                      (summary changes userId : string) (now : Z)
  : list DocumentVersion :=
  (versions
   ++ [{| versionNumber := List.length versions + 1;
          summary := summary;
          changes := changes;
          createdAt := now;
          createdBy := userId |}])%list.

Definition getProcessingProgress {number : Type} (this : Doc number) : nat :=
  match processingStatus this with
  | pending => 0
  | processing => 50
  | completed => 100
  | failed => 0
  end.

(** The one group the aggregation of [getUserAnalytics] yields. *)
Record Group : Type := {
  totalDocuments : nat;
  totalWords : Z;
  totalSize : Z;
  avgWordsPerDocument : Q;
  avgReadingTime : Q;
  fileTypes : list string;
  sentiments : list string;
  processingStatuses : list string
}.

Record Analytics : Type := {
  analytics_totalDocuments : nat;
  analytics_totalWords : Z;
  analytics_totalSize : Z;
  analytics_avgWordsPerDocument : Q;
  analytics_avgReadingTime : Q;
  fileTypeDistribution : dict AIService.freq;
  sentimentDistribution : dict AIService.freq;
  processingStatusDistribution : dict AIService.freq
}.

Definition native_function (name : string) : string :=
  "function " ++ name ++ "() { [native code] }".

(** The string conversion of [Object.prototype[v]], for each of the names
    [Object.prototype] has. *)
Definition inherited (v : string) : option string :=
  if String.eqb v "__proto__" then Some "[object Object]"
  else if String.eqb v "constructor" then Some (native_function "Object")
  else if existsb (String.eqb v)
            ["__defineGetter__"; "__defineSetter__"; "hasOwnProperty";
             "__lookupGetter__"; "__lookupSetter__"; "isPrototypeOf";
             "propertyIsEnumerable"; "toString"; "valueOf"; "toLocaleString"]
  then Some (native_function v)
  else None.

(** [(counts[v] || 0) + 1] *)
Definition next_count (counts : dict AIService.freq) (v : string)
  : AIService.freq :=
  match dict_get v counts with
  | Some (AIService.Count n) => AIService.Count (n + 1)
  | Some (AIService.Text s) => AIService.Text (s ++ "1")
  | None =>
      match inherited v with
      | Some s => AIService.Text (s ++ "1")
      | None => AIService.Count 1
      end
  end.

(** [counts[v] = (counts[v] || 0) + 1] *)
Definition count_value (counts : dict AIService.freq) (v : string)
  : dict AIService.freq :=
  AIService.assign counts v (next_count counts v).

(** [values.forEach(v => { counts[v] = (counts[v] || 0) + 1 })] on a new
    object. *)
Definition countValues (values : list string) : dict AIService.freq :=
  fold_left count_value values [].

(** What [getUserAnalytics] makes of the aggregation's answer; [None] is
    the empty object it returns for a user without documents. *)
Definition getUserAnalytics (analytics : list Group) : option Analytics :=
  match analytics with
  | [] => None
  | result :: _ =>
      Some {| analytics_totalDocuments := totalDocuments result;
              analytics_totalWords := totalWords result;
              analytics_totalSize := totalSize result;
              analytics_avgWordsPerDocument := avgWordsPerDocument result;
              analytics_avgReadingTime := avgReadingTime result;
              fileTypeDistribution := countValues (fileTypes result);
              sentimentDistribution := countValues (sentiments result);
              processingStatusDistribution :=
                countValues (processingStatuses result) |}
  end.

End DocumentMethods.

(** *** routes/documents.ts: the document the upload route creates *)

Module Upload.
Import JS DocumentModel.

(** [new Document({ ... })] of the upload route, the other fields at the
    schema's defaults. *)
Definition newDocument (title : option string) (originalname extractedText : string)
  : Doc Q :=
  {| title := AIService.name_or title originalname;
     originalFileName := originalname;
     extractedText := extractedText;
     wordCount := List.length (split_ws extractedText);
     readingTime := 0;
     summary :=
       {| short := EmptyString; medium := EmptyString; detailed := EmptyString |};
     sentiment := {| score := 0; label := "neutral"; confidence := 0 |};
     keywords := [];
     topics := [];
     entities := [];
     embeddings := Some [];
     processingStatus := pending;
     metadata := no_metadata |}.

End Upload.

(** ** Further vocabulary *)

Module Vocabulary.
Import JS AIService.

(** The shape every analysis has, whichever path made it. *)
Definition well_shaped (text : string) (a : DocumentAnalysis) : Prop :=
  readingTime a = readingTimeOf (wordCountOf text)
  /\ 1 <= readingTime a
  /\ List.length (keywords a) <= 10
  /\ List.length (topics a) <= 5
  /\ List.length (entities a) <= 10.

(** The names of the members of [Object.prototype]. *)
Definition Object_prototype : list string :=
  ["constructor"; "__defineGetter__"; "__defineSetter__"; "hasOwnProperty";
   "__lookupGetter__"; "__lookupSetter__"; "isPrototypeOf";
   "propertyIsEnumerable"; "toString"; "valueOf"; "__proto__";
   "toLocaleString"].

Definition is_member (v : string) : bool :=
  existsb (String.eqb v) Object_prototype.

(** A list of values none of which names a member of [Object.prototype]. *)
Definition plain (values : list string) : Prop :=
  Forall (fun v => is_member v = false) values.

(** The sum of the counts a dictionary holds. *)
Definition total_count (o : dict freq) : nat :=
  fold_right (fun kv acc => match snd kv with
                            | Count n => n + acc
                            | Text _ => acc
                            end) 0 o.

(** A distribution of values: every value that occurs and names no member
    of [Object.prototype] has the number of its occurrences; a name of a
    member never has a number; and when no value names a member, the
    numbers add up to the number of values. *)
Definition distribution (values : list string) (d : dict freq) : Prop :=
  (forall k, In k values -> is_member k = false ->
     dict_get k d = Some (Count (Spec.occurrences values k)))
  /\ (forall k n, is_member k = true -> dict_get k d <> Some (Count n))
  /\ (plain values -> total_count d = List.length values).

(** Versions numbered 1, 2, 3, ... in their order. *)
Definition numbered (versions : list DocumentMethods.DocumentVersion) : Prop :=
  map DocumentMethods.versionNumber versions = seq 1 (List.length versions).

(** The trend data [addTimelineEntry] computes, as a function of the
    sorted timeline it has just built. *)
Definition trend_of {number : Type} {arithmetic : Number.Arithmetic number}
                    (timeline : list (Topic.TimelineEntry number))
  : Topic.TrendData number :=
  {| Topic.frequency := List.length timeline;
     Topic.sentimentTrend := map Topic.sentiment (firstn 10 timeline);
     Topic.popularityScore :=
       Number.round
         (Number.add
            (Number.min (Number.of_nat (List.length timeline * 2))
                        (Number.of_nat 50))
            (Number.mul
               (Number.add
                  (Number.div
                     (fold_left (fun sum t => Number.add sum (Topic.sentiment t))
                                (firstn 5 timeline) (Number.of_nat 0))
                     (Number.of_nat (List.length (firstn 5 timeline))))
                  (Number.of_nat 1))
               (Number.of_nat 25))) |}.

End Vocabulary.

(** ** More sample inputs *)

Module MoreSamples.
Import JS.

(** The aggregation's answer for a user with three documents. *)
Definition three_documents : DocumentMethods.Group :=
  {| DocumentMethods.totalDocuments := 3;
     DocumentMethods.totalWords := 900;
     DocumentMethods.totalSize := 30000;
     DocumentMethods.avgWordsPerDocument := 300;
     DocumentMethods.avgReadingTime := 2;
     DocumentMethods.fileTypes := ["pdf"; "txt"; "pdf"];
     DocumentMethods.sentiments := ["neutral"; "positive"; "neutral"];
     DocumentMethods.processingStatuses := ["completed"; "completed"; "failed"] |}.

(** A file system in which no file can be read, and names end in
    [.PDF]. *)
Definition fs_unreadable : TextExtraction.FileSystem :=
  {| TextExtraction.readFileSync := fun _ => Throw "ENOENT";
     TextExtraction.basename := fun p => p;
     TextExtraction.extname := fun _ => ".PDF" |}.

Definition pro_user : UserModel.User :=
  {| UserModel.email := "ada@example.org";
     UserModel.firstName := "Ada";
     UserModel.lastName := "Lovelace";
     UserModel.subscription := UserModel.pro;
     UserModel.subscriptionExpiry := Some 2000%Z;
     UserModel.documentsUploaded := 3%Z;
     UserModel.storageUsed := 4096%Z |}.

Definition shared_document : AuthMiddleware.Sharing :=
  {| AuthMiddleware.userId := "user1";
     AuthMiddleware.isPublic := false;
     AuthMiddleware.collaborators := ["user2"] |}.

(** The six sample entries in the opposite order, newest first. *)
Definition six_entries_reversed : list (Topic.TimelineEntry Q) :=
  rev Samples.six_entries.

End MoreSamples.

(** * Properties *)

Import JS.

(** ** Facts about the runtime *)

Section ArrayFrom.
Context {S A : Type} (f : S -> A * S).


End ArrayFrom.

Section SortFacts.
Context {A : Type} (cmp : A -> A -> Z).

Lemma sort_insert_perm x l : Permutation (sort_insert cmp x l) (x :: l).
Proof.
  induction l as [|y l IH]; simpl; [reflexivity|].
  destruct (cmp x y <=? 0)%Z; [reflexivity|].
  rewrite IH. apply perm_swap.
Qed.

Lemma sort_perm l : Permutation (sort cmp l) l.
Proof.
  induction l as [|x l IH]; simpl; [reflexivity|].
  rewrite sort_insert_perm. now constructor.
Qed.

(** The comparator orders by a rank: [x] may stay before [y] exactly when
    its rank is not greater. *)
Variable rank : A -> Z.
Hypothesis cmp_rank : forall x y, (cmp x y <= 0)%Z <-> (rank x <= rank y)%Z.

Local Abbreviation ranked := (fun x y : A => (rank x <= rank y)%Z).

Lemma sort_insert_sorted x l :
  StronglySorted ranked l -> StronglySorted ranked (sort_insert cmp x l).
Proof.
  induction 1 as [|y l Hs IH Hy]; simpl.
  - repeat constructor.
  - destruct (Z.leb_spec (cmp x y) 0) as [Hc|Hc].
    + apply cmp_rank in Hc. constructor; [now constructor|].
      constructor; [exact Hc|].
      eapply List.Forall_impl; [|exact Hy]. cbv beta. intros; lia.
    + constructor; [exact IH|].
      apply (Permutation_Forall (Permutation_sym (sort_insert_perm x l))).
      constructor; [|exact Hy].
      cbv beta. destruct (Z.le_gt_cases (rank y) (rank x)) as [|Hgt]; [assumption|].
      exfalso. assert (cmp x y <= 0)%Z by (apply cmp_rank; lia). lia.
Qed.

Lemma sort_sorted l : StronglySorted ranked (sort cmp l).
Proof.
  induction l as [|x l IH]; simpl; [constructor | now apply sort_insert_sorted].
Qed.

(** Stability: the elements of one rank keep their order. *)
Lemma sort_insert_stable r x l :
  List.filter (fun a => (rank a =? r)%Z) (sort_insert cmp x l)
  = List.filter (fun a => (rank a =? r)%Z) (x :: l).
Proof.
  induction l as [|y l IH]; [reflexivity|].
  cbn [sort_insert]. destruct (Z.leb_spec (cmp x y) 0) as [Hc|Hc]; [reflexivity|].
  assert (rank y < rank x)%Z as Hlt.
  { destruct (Z.lt_ge_cases (rank y) (rank x)) as [|Hge]; [assumption|].
    exfalso. assert (cmp x y <= 0)%Z by (apply cmp_rank; lia). lia. }
  cbn [List.filter] in *. rewrite IH.
  destruct (Z.eqb_spec (rank x) r), (Z.eqb_spec (rank y) r);
    try reflexivity; lia.
Qed.

Lemma sort_stable r l :
  List.filter (fun a => (rank a =? r)%Z) (sort cmp l)
  = List.filter (fun a => (rank a =? r)%Z) l.
Proof.
  induction l as [|x l IH]; [reflexivity|].
  cbn [sort fold_right]. fold (sort cmp l). rewrite sort_insert_stable.
  cbn [List.filter]. now rewrite IH.
Qed.
End SortFacts.

(** Sorting the images sorts the originals, when the comparators agree. *)
Lemma sort_map {A B : Type} (f : A -> B) (cmpA : A -> A -> Z) (cmpB : B -> B -> Z) l :
  (forall x y, cmpB (f x) (f y) = cmpA x y) ->
  sort cmpB (map f l) = map f (sort cmpA l).
Proof.
  intros Hc. induction l as [|x l IH]; [reflexivity|].
  cbn [map sort fold_right]. fold (sort cmpB (map f l)). fold (sort cmpA l).
  rewrite IH. generalize (sort cmpA l) as s. clear IH.
  induction s as [|y s IHs]; [reflexivity|].
  cbn [map sort_insert]. rewrite Hc. destruct (cmpA x y <=? 0)%Z; [reflexivity|].
  cbn [map]. now rewrite IHs.
Qed.

(** [split(/\s+/)] at the edges. *)
Example split_ws_edges :
  split_ws EmptyString = [EmptyString]
  /\ split_ws "   " = [EmptyString; EmptyString]
  /\ split_ws " a  b " = [EmptyString; "a"; "b"; EmptyString].
Proof. repeat split; reflexivity. Qed.

(** Matches of a global pattern do not overlap. *)
Example count_matches_disjoint :
  count_matches "aa" "aaaaa" = 2 /\ count_matches "good" "goodness, so good" = 2.
Proof. split; reflexivity. Qed.

(** Array indices come first among the names of an object. *)
Example entries_order :
  map fst (entries [("zeta", 1); ("2024", 2); ("0123", 3); ("1999", 4);
                    ("4294967295", 5)])
  = ["1999"; "2024"; "zeta"; "0123"; "4294967295"].
Proof. vm_compute. reflexivity. Qed.

(** ** services/aiService.ts: generateEmbeddings *)

Section Embeddings.
Import AIService.






(** The same with a provider that answers with 100 numbers. *)
Example generateEmbeddings_short_vector :
  exists v, fst (generateEmbeddings Samples.env_short_vector "quarterly report" 0) = Ok v
            /\ List.length v = 100.
Proof. eexists. split; vm_compute; reflexivity. Qed.

End Embeddings.

(** ** services/aiService.ts: analyzeDocument *)

Section Analysis.
Import AIService Spec.

Lemma build_analysis_null readingTime :
  exists e, build_analysis JNull readingTime = Throw e.
Proof. eexists. reflexivity. Qed.

Lemma remote_failure_throws env text fileName :
  RemoteFailure env text fileName ->
  key_missing env = true
  \/ exists e, analyze_remote env text fileName = Throw e.
Proof.
  intros [Hk | e Hk He | c Hk Hc Hn | c s Hk Hc Hs Hp | c s Hk Hc Hs Hp];
    [left; exact Hk | right ..];
    unfold analyze_remote; rewrite Hk.
  - rewrite He. eexists. reflexivity.
  - rewrite Hc. cbn [bind]. rewrite Hn. eexists. reflexivity.
  - rewrite Hc. cbn [bind]. rewrite Hs, Hp. eexists. reflexivity.
  - rewrite Hc. cbn [bind]. rewrite Hs, Hp. apply build_analysis_null.
Qed.

Lemma analyzeDocument_ok env text fileName :
  exists a, analyzeDocument env text fileName = Ok a.
Proof.
  unfold analyzeDocument, try_catch.
  destruct (analyze_remote env text fileName) as [a|e]; eexists; reflexivity.
Qed.

(** C2. [analyzeDocument] never throws, and whenever the remote inference
    path fails (no API key, an exception of the provider, an empty
    completion, a payload that is not JSON or is [null]) its result is
    that of [generateSimulatedAnalysis] on the same text and file name. *)
Theorem analyzeDocument_falls_back env text fileName :
  (exists a, analyzeDocument env text fileName = Ok a)
  /\ (RemoteFailure env text fileName ->
      analyzeDocument env text fileName
      = Ok (generateSimulatedAnalysis text fileName)).
Proof.
  split; [apply analyzeDocument_ok|].
  intros Hf. unfold analyzeDocument.
  destruct (remote_failure_throws _ _ _ Hf) as [Hk | [e He]].
  - unfold analyze_remote. rewrite Hk. reflexivity.
  - rewrite He. reflexivity.
Qed.

Lemma analyzeDocument_falls_back_witness :
  analyzeDocument Samples.env_provider_down "The launch was a great success."
                  (Some "launch.txt")
  = Ok (generateSimulatedAnalysis "The launch was a great success."
                                  (Some "launch.txt")).
Proof.
  apply (analyzeDocument_falls_back Samples.env_provider_down).
  apply ProviderException with (e := "429 rate limit"); reflexivity.
Defined.

(** The scenario of the specification: no provider configured. *)
Example simulated_scenario :
  let text := "This is a great, great, wonderful product that works well. Tested by Acme Corp." in
  exists a,
    analyzeDocument Samples.env_no_key text (Some "review.txt") = Ok a
    /\ keywords a = map JStr ["great"; "wonderful"; "product"; "works";
                               "well"; "tested"; "acme"; "corp"]
    /\ topics a = map JStr ["great"; "wonderful"; "product"]
    /\ score (sentiment a) = JNum (3 # 4)
    /\ label (sentiment a) = JStr "positive"
    /\ readingTime a = 1.
Proof. eexists. split; [vm_compute; reflexivity|]. vm_compute. repeat split. Qed.

(** *** The sentiment of an analysis *)

Lemma ratio_nonneg a b : (0 <= ratio a b)%Q.
Proof.
  unfold ratio, Qdiv. apply Qmult_le_0_compat.
  - change 0%Q with (inject_Z 0). rewrite <- Zle_Qle. lia.
  - apply Qinv_le_0_compat. change 0%Q with (inject_Z 0).
    rewrite <- Zle_Qle. lia.
Qed.

Lemma capped_ratio_range a b :
  (0 <= Qmin (8 # 10) (ratio a b) <= 8 # 10)%Q.
Proof.
  split.
  - apply Q.min_glb; [lra | apply ratio_nonneg].
  - apply Q.le_min_l.
Qed.

(** The simulated score stays within [-0.8, 0.8] and carries its label. *)
Lemma sentimentOf_range text :
  let (s, l) := sentimentOf text in
  (-(8 # 10) <= s <= 8 # 10)%Q
  /\ (l = "positive" \/ l = "negative" \/ l = "neutral").
Proof.
  unfold sentimentOf.
  set (p := count_words positiveWords (toLowerCase text)).
  set (n := count_words negativeWords (toLowerCase text)).
  destruct (n <? p); [|destruct (p <? n)].
  - pose proof (capped_ratio_range p (p + n + 1)). split; [lra | auto].
  - pose proof (capped_ratio_range n (p + n + 1)). split; [lra | auto].
  - split; [lra | auto].
Qed.

Lemma simulated_sentiment text fileName :
  sentiment (generateSimulatedAnalysis text fileName)
  = {| score := JNum (fst (sentimentOf text));
       label := JStr (snd (sentimentOf text));
       confidence := JNum (7 # 10) |}.
Proof.
  unfold generateSimulatedAnalysis.
  destruct (sentimentOf text) as [s l]. reflexivity.
Qed.

Lemma simulated_sentiment_ok text fileName :
  sentiment_ok (sentiment (generateSimulatedAnalysis text fileName)) = true.
Proof.
  rewrite simulated_sentiment.
  pose proof (sentimentOf_range text) as H.
  destruct (sentimentOf text) as [s l]. destruct H as [[Hlo Hhi] Hl].
  unfold sentiment_ok, in_interval, is_label. cbn [score label confidence fst snd].
  assert (Qle_bool (-1) s = true) as -> by (apply Qle_bool_iff; lra).
  assert (Qle_bool s 1 = true) as -> by (apply Qle_bool_iff; lra).
  destruct Hl as [-> | [-> | ->]]; reflexivity.
Qed.

(** C6, as the code has it. [analyzeDocument] returns an analysis. When
    the simulated analysis produced it, its sentiment satisfies the data
    model; when the provider's parsed answer produced it, the three fields
    are the answer's own values wherever these are truthy, unchecked, and
    0, neutral and 0.5 otherwise. *)
Theorem analyzeDocument_sentiment env text fileName :
  exists a, analyzeDocument env text fileName = Ok a /\
    match remote_answer env text fileName with
    | Some analysis => sentiment a = remote_sentiment analysis
    | None => a = generateSimulatedAnalysis text fileName
              /\ sentiment_ok (sentiment a) = true
    end.
Proof.
  assert (Hsim : exists a,
             Ok (generateSimulatedAnalysis text fileName) = Ok a
             /\ a = generateSimulatedAnalysis text fileName
             /\ sentiment_ok (sentiment a) = true).
  { eexists. split; [reflexivity|]. split; [reflexivity|].
    apply simulated_sentiment_ok. }
  unfold analyzeDocument, analyze_remote, remote_answer.
  destruct (key_missing env); [exact Hsim|].
  destruct (chat_completions_create env (analysisPrompt text fileName)) as [c|e];
    cbn [bind try_catch]; [|exact Hsim].
  destruct (first_content c) as [s|]; cbn [try_catch]; [|exact Hsim].
  destruct (JSON_parse env s) as [analysis|]; cbn [try_catch]; [|exact Hsim].
  destruct analysis; try exact Hsim;
    (eexists; split; [reflexivity | reflexivity]).
Qed.

(** C6, as the specification words it, fails: a provider that reports the
    score 5, the label mixed and the confidence 2 is believed. *)
Lemma analyzeDocument_sentiment_counterexample :
  exists a,
    analyzeDocument Samples.env_wild_sentiment "Any text at all." (Some "a.txt")
    = Ok a
    /\ sentiment_ok (sentiment a) = false.
Proof.
  eexists. split; [vm_compute; reflexivity | vm_compute; reflexivity].
Qed.

End Analysis.

(** ** The Document model: the save hooks *)

Section SaveHooks.
Import DocumentModel.
Context {number : Type} (schema_valid : Doc number -> bool).

Lemma pre_save_readingTime_embeddings b (this : Doc number) :
  embeddings (pre_save_readingTime b this) = embeddings this.
Proof. destruct b; reflexivity. Qed.

(** The dimension check rejects exactly the vectors that are present, not
    empty and not of length 1536. *)
Lemma pre_save_embeddings_rejects (this : Doc number) :
  pre_save_embeddings this = Throw dimension_error
  <-> exists v, embeddings this = Some v
                /\ 0 < List.length v /\ List.length v <> 1536.
Proof.
  unfold pre_save_embeddings. split.
  - destruct (embeddings this) as [v|]; [|discriminate].
    destruct (0 <? List.length v) eqn:Hpos; [|discriminate].
    destruct (List.length v =? 1536) eqn:Hlen; [discriminate|].
    intros _. exists v. apply Nat.ltb_lt in Hpos. apply Nat.eqb_neq in Hlen.
    auto.
  - intros [v [-> [Hpos Hlen]]].
    apply Nat.ltb_lt in Hpos. apply Nat.eqb_neq in Hlen.
    now rewrite Hpos, Hlen.
Qed.

Lemma pre_save_embeddings_cases (this : Doc number) :
  pre_save_embeddings this = Ok tt
  \/ pre_save_embeddings this = Throw dimension_error.
Proof.
  unfold pre_save_embeddings. destruct (embeddings this) as [v|]; [|now left].
  destruct ((0 <? List.length v) && negb (List.length v =? 1536)); auto.
Qed.

(** On the [save] path a vector of a wrong length is refused and the store
    is left as it was. *)
Lemma save_rejects_wrong_dimension id (this : Doc number) modified db v :
  schema_valid this = true ->
  embeddings this = Some v ->
  0 < List.length v -> List.length v <> 1536 ->
  save schema_valid id this modified db = Throw dimension_error.
Proof.
  intros Hvalid Hv Hpos Hlen. unfold save. rewrite Hvalid.
  assert (pre_save_embeddings (pre_save_readingTime modified this)
          = Throw dimension_error) as ->; [|reflexivity].
  apply pre_save_embeddings_rejects. exists v.
  rewrite pre_save_readingTime_embeddings. auto.
Qed.

(** C10. A document whose embeddings array is empty passes the dimension
    check: [save] never answers it with the dimension error, and stores it
    whenever the schema's own validators accept it. *)
Theorem save_accepts_empty_embeddings id (this : Doc number) modified db v :
  embeddings this = Some v ->
  List.length v = 0 ->
  pre_save_embeddings this = Ok tt
  /\ save schema_valid id this modified db <> Throw dimension_error
  /\ (schema_valid this = true ->
      save schema_valid id this modified db
      = Ok (<[id := pre_save_readingTime modified this]> db)).
Proof.
  intros Hv Hlen.
  assert (Hok : forall b, pre_save_embeddings (pre_save_readingTime b this) = Ok tt).
  { intros b. unfold pre_save_embeddings.
    rewrite pre_save_readingTime_embeddings, Hv, Hlen. reflexivity. }
  split; [|split].
  - unfold pre_save_embeddings. rewrite Hv, Hlen. reflexivity.
  - unfold save. destruct (schema_valid this).
    + rewrite Hok. discriminate.
    + intros H. injection H as H. vm_compute in H. discriminate.
  - intros Hvalid. unfold save. rewrite Hvalid, Hok. reflexivity.
Qed.

End SaveHooks.

Lemma save_accepts_empty_embeddings_witness :
  DocumentModel.save (fun _ => true) "doc1"
    (Samples.uploaded (number := Q) Samples.report_text (Some [])) true ∅
  = Ok (<["doc1" := DocumentModel.pre_save_readingTime true
                      (Samples.uploaded Samples.report_text (Some []))]> ∅).
Proof.
  apply (save_accepts_empty_embeddings (fun _ => true) "doc1"
           (Samples.uploaded Samples.report_text (Some [])) true ∅ []);
    reflexivity.
Defined.

(** ** The Document model: calculateSimilarity *)

Section Similarity.
Import DocumentModel.

Lemma calculateSimilarity_absent (this other : Doc float) :
  embeddings this = None \/ embeddings other = None ->
  calculateSimilarity this other = 0%float.
Proof.
  unfold calculateSimilarity. intros [-> | ->]; [reflexivity|].
  destruct (embeddings this); reflexivity.
Qed.

Lemma calculateSimilarity_this_empty (this other : Doc float) :
  embeddings this = Some [] ->
  calculateSimilarity this other = 0%float.
Proof.
  unfold calculateSimilarity. intros ->.
  destruct (embeddings other); reflexivity.
Qed.

(** The guard on the norms: when either sum of squares the loop computed
    is zero, the result is 0 and nothing is divided. *)
Lemma calculateSimilarity_zero_norm (this other : Doc float) a b dot normA normB :
  embeddings this = Some a -> embeddings other = Some b ->
  fold_left (similarity_step a b) (seq 0 (List.length a)) (0, 0, 0)%float
  = (dot, normA, normB) ->
  PrimFloat.eqb normA 0 = true \/ PrimFloat.eqb normB 0 = true ->
  calculateSimilarity this other = 0%float.
Proof.
  unfold calculateSimilarity. intros -> -> -> [-> | ->]; [reflexivity|].
  now rewrite orb_true_r.
Qed.

(** C9 at the failing input: a document with the vector [1] compared with
    a document whose vector is the empty array (the schema's default)
    yields NaN, not 0. The loop reads [undefined] past the end of the
    other vector, the sums become NaN, and NaN is not [=== 0]. *)
Theorem calculateSimilarity_empty_other_is_nan :
  PrimFloat.is_nan
    (calculateSimilarity (Samples.uploaded "a" (Some [1%float]))
                         (Samples.uploaded "b" (Some [])))
  = true.
Proof. vm_compute. reflexivity. Qed.

End Similarity.

(** ** routes/documents.ts: processDocumentAI *)

Section Processing.
Import AIService DocumentModel Routes Spec.

Lemma generateEmbeddings_ok env text seed :
  exists v seed', generateEmbeddings env text seed = (Ok v, seed').
Proof.
  unfold generateEmbeddings. destruct (key_missing env).
  - destruct (simulatedEmbeddings env seed) as [v s]. eauto.
  - destruct (embed_remote env text).
    + eauto.
    + destruct (simulatedEmbeddings env seed) as [v s]. eauto.
Qed.

(** *** The cast of an analysis *)

Lemma typed_list_strings l : typed_list typed_string (map JStr l) = Some l.
Proof.
  induction l as [|x l IH]; [reflexivity|].
  cbn [map typed_list typed_string]. now rewrite IH.
Qed.

(** Every value of the simulated analysis has the type of its path, so
    its cast cannot fail. *)
Lemma typed_simulated text fileName :
  exists fields,
    typed_analysis (generateSimulatedAnalysis text fileName) = Some fields
    /\ cast_keywords fields = keywordsOf text.
Proof.
  unfold generateSimulatedAnalysis. destruct (sentimentOf text) as [s l].
  unfold typed_analysis.
  cbn [AIService.summary AIService.sentiment AIService.keywords AIService.topics
       AIService.entities typed_summary typed_sentiment typed_string typed_number
       AIService.short AIService.medium AIService.detailed AIService.score
       AIService.label AIService.confidence].
  rewrite !typed_list_strings.
  eexists. split; [reflexivity | reflexivity].
Qed.

Lemma cast_analysis_simulated mongoose text fileName :
  exists fields,
    cast_analysis mongoose (generateSimulatedAnalysis text fileName) = Ok fields.
Proof.
  destruct (typed_simulated text fileName) as [fields [Ht _]].
  exists fields. unfold cast_analysis. now rewrite Ht.
Qed.

Lemma cast_analysis_cases mongoose analysis :
  (exists fields, cast_analysis mongoose analysis = Ok fields)
  \/ cast_analysis mongoose analysis = Throw cast_error.
Proof.
  unfold cast_analysis. destruct (typed_analysis analysis); [eauto|].
  destruct (castAnalysis_other mongoose analysis); eauto.
Qed.

(** *** The status writes *)

Lemma write_status_accepted mongoose id oid status st :
  castObjectId mongoose id = Ok oid ->
  write_status mongoose id status st
  = Ok {| db := alter (set_status status) oid (db st);
          seed := seed st;
          trace := trace st ++ [StatusWrite id status] |}.
Proof.
  intros Hid. unfold write_status, findByIdAndUpdate. now rewrite Hid.
Qed.


(** The status write looks at no field of the document. *)
Lemma write_status_unconditional mongoose id oid status st d :
  castObjectId mongoose id = Ok oid ->
  db st !! oid = Some d ->
  exists st', write_status mongoose id status st = Ok st'
              /\ db st' !! oid = Some (set_status status d).
Proof.
  intros Hid Hd. rewrite (write_status_accepted _ _ _ _ _ Hid).
  eexists. split; [reflexivity|]. cbn [db]. now rewrite lookup_alter_eq, Hd.
Qed.

(** *** One run *)


(** With an id that is one, a run writes [processing], runs the analysis
    and the embedding, neither of which throws, and ends with the results
    and [completed] when mongoose can cast the analysis to the schema, with
    [failed] when it cannot. *)
Lemma processDocumentAI_run env mongoose id oid text fileName st :
  castObjectId mongoose id = Ok oid ->
  exists a v seed',
    analyzeDocument env text (Some fileName) = Ok a
    /\ generateEmbeddings env text (seed st) = (Ok v, seed')
    /\ processDocumentAI env mongoose id text fileName st
       = match cast_analysis mongoose a with
         | Ok fields =>
             ({| db := alter (set_completed fields v (AIService.readingTime a)) oid
                         (alter (set_status processing) oid (db st));
                 seed := seed';
                 trace := trace st ++ [StatusWrite id processing; AnalysisRun id;
                                       EmbeddingRun id; StatusWrite id completed] |},
              Ok tt)
         | Throw _ =>
             ({| db := alter (set_status failed) oid
                         (alter (set_status processing) oid (db st));
                 seed := seed';
                 trace := trace st ++ [StatusWrite id processing; AnalysisRun id;
                                       EmbeddingRun id; StatusWrite id failed] |},
              Ok tt)
         end.
Proof.
  intros Hid.
  destruct (analyzeDocument_ok env text (Some fileName)) as [a Ha].
  destruct (generateEmbeddings_ok env text (seed st)) as [v [s' Hv]].
  exists a, v, s'. split; [exact Ha|]. split; [exact Hv|].
  unfold processDocumentAI, process_body.
  rewrite (write_status_accepted _ _ _ _ _ Hid), Ha. cbn [seed db trace].
  rewrite Hv. cbn [seed db trace].
  unfold findByIdAndUpdate, completed_update. rewrite Hid. cbn [bind].
  destruct (cast_analysis mongoose a) as [fields|e]; cbn [bind].
  - rewrite <- !app_assoc. reflexivity.
  - rewrite (write_status_accepted _ _ _ _ _ Hid). cbn [seed db trace].
    rewrite <- !app_assoc. reflexivity.
Qed.







(** The write of the results goes through [findByIdAndUpdate]: when the
    analysis can be cast, whatever vector [generateEmbeddings] returned is
    stored, no hook asked. *)
Lemma processDocumentAI_stores_vector env mongoose id oid text fileName st d a fields :
  castObjectId mongoose id = Ok oid ->
  db st !! oid = Some d ->
  analyzeDocument env text (Some fileName) = Ok a ->
  cast_analysis mongoose a = Ok fields ->
  exists v d',
    fst (generateEmbeddings env text (seed st)) = Ok v
    /\ db (fst (processDocumentAI env mongoose id text fileName st)) !! oid = Some d'
    /\ d' = set_completed fields v (AIService.readingTime a) (set_status processing d).
Proof.
  intros Hid Hd Ha Hc.
  destruct (processDocumentAI_run env mongoose id oid text fileName st Hid)
    as [a' [v [s' [Ha' [Hv ->]]]]].
  rewrite Ha in Ha'. injection Ha' as <-. rewrite Hc.
  exists v, (set_completed fields v (AIService.readingTime a) (set_status processing d)).
  split; [now rewrite Hv|]. split; [|reflexivity].
  cbn [fst db]. rewrite !lookup_alter_eq, Hd. reflexivity.
Qed.

(** C5 at the failing input: the provider answers with a vector of 100
    numbers; [processDocumentAI] stores it and marks the document
    completed. *)
Theorem processDocumentAI_stores_short_vector :
  let st := fst (processDocumentAI Samples.env_short_vector Samples.mongoose
                   Samples.doc1 Samples.report_text "report.txt"
                   Samples.st_uploaded) in
  exists d v,
    db st !! Samples.doc1 = Some d
    /\ processingStatus d = completed
    /\ embeddings d = Some v
    /\ List.length v = 100.
Proof.
  destruct (cast_analysis_simulated Samples.mongoose Samples.report_text
              (Some "report.txt")) as [fields Hc].
  destruct (processDocumentAI_stores_vector Samples.env_short_vector
              Samples.mongoose Samples.doc1 Samples.doc1
              Samples.report_text "report.txt" Samples.st_uploaded
              (Samples.uploaded Samples.report_text (Some []))
              (generateSimulatedAnalysis Samples.report_text (Some "report.txt"))
              fields)
    as [v [d' [Hv [Hd Heq]]]].
  - reflexivity.
  - vm_compute. reflexivity.
  - reflexivity.
  - exact Hc.
  - exists d', v. split; [exact Hd|]. subst d'. split; [reflexivity|].
    split; [reflexivity|].
    assert (Ok v = Ok (repeat (1 # 10)%Q 100)) as Heq
      by (rewrite <- Hv; reflexivity).
    injection Heq as ->. reflexivity.
Qed.

(** A provider that reports the score as a word, and a mongoose that
    converts nothing: the update with the results is rejected, the [catch]
    block writes [failed], and the document keeps what it had. *)
Example worded_score_fails :
  let run := processDocumentAI Samples.env_worded_score Samples.mongoose
               Samples.doc1 Samples.report_text "report.txt"
               Samples.st_uploaded in
  snd run = Ok tt
  /\ db (fst run) !! Samples.doc1
     = Some (set_status failed (Samples.uploaded Samples.report_text (Some [])))
  /\ trace (fst run)
     = [StatusWrite Samples.doc1 processing; AnalysisRun Samples.doc1;
        EmbeddingRun Samples.doc1; StatusWrite Samples.doc1 failed].
Proof. split; [|split]; vm_compute; reflexivity. Qed.

End Processing.

(** ** models/Topic.ts: addTimelineEntry *)

(** *** The timeline, whatever the arithmetic *)

Section TopicStructure.
Import Topic Number.
Context {number : Type} {arithmetic : Arithmetic number}.

Lemma newest_first_rank (x y : TimelineEntry number) :
  (newest_first x y <= 0)%Z <-> (- date x <= - date y)%Z.
Proof. unfold newest_first. lia. Qed.

Lemma addTimelineEntry_timeline (this : Topic number) entry :
  timeline (addTimelineEntry this entry)
  = sort newest_first (timeline this ++ [entry]).
Proof. reflexivity. Qed.

Lemma sorted_newest_first (l : list (TimelineEntry number)) :
  StronglySorted (fun a b => (date b <= date a)%Z) (sort newest_first l).
Proof.
  pose proof (sort_sorted newest_first (fun e => (- date e)%Z) newest_first_rank l)
    as Hs.
  induction Hs as [|a l' Hs IH Ha]; constructor; [exact IH|].
  eapply List.Forall_impl; [|exact Ha]. cbv beta. intros; lia.
Qed.

Lemma stable_newest_first (l : list (TimelineEntry number)) d :
  List.filter (fun e => (date e =? d)%Z) (sort newest_first l)
  = List.filter (fun e => (date e =? d)%Z) l.
Proof.
  pose proof (sort_stable newest_first (fun e => (- date e)%Z) newest_first_rank
                (- d)%Z l) as Hst.
  assert (Heq : forall l' : list (TimelineEntry number),
             List.filter (fun e => (date e =? d)%Z) l'
             = List.filter (fun e => (- date e =? - d)%Z) l').
  { intros l'. apply filter_ext. intros e.
    destruct (Z.eqb_spec (date e) d), (Z.eqb_spec (- date e) (- d));
      try reflexivity; lia. }
  rewrite !Heq. exact Hst.
Qed.

Lemma addTimelineEntry_length (this : Topic number) entry :
  List.length (timeline (addTimelineEntry this entry))
  = S (List.length (timeline this)).
Proof.
  rewrite addTimelineEntry_timeline, (Permutation_length (sort_perm _ _)),
    length_app. cbn [List.length]. lia.
Qed.

End TopicStructure.

(** *** The popularity score on binary64 numbers *)

Section TopicBinary64.
Import Topic Spec.

(** The integers the code turns into numbers are the numbers of those
    integers. *)
Lemma Prim2SF_of_Z n :
  (0 <= n < 2 ^ 63)%Z ->
  Prim2SF (PrimFloat.of_uint63 (Uint63.of_Z n))
  = binary_normalize prec emax n 0 false.
Proof.
  intros Hn. rewrite of_uint63_spec, Uint63.of_Z_spec.
  now rewrite Z.mod_small by (change Uint63.wB with (2 ^ 63)%Z; lia).
Qed.

Lemma SFopp_binary_round p e :
  SFopp (binary_round prec emax false p e) = binary_round prec emax true p e.
Proof.
  unfold binary_round. destruct (shl_align p e _) as [mz ez].
  unfold binary_round_aux.
  destruct (shr_fexp prec emax (Z.pos mz) ez loc_Exact) as [mrs' e'].
  destruct (shr_fexp prec emax _ e' loc_Exact) as [mrs'' e''].
  destruct (shr_m mrs''); try reflexivity.
  destruct (e'' <=? emax - prec)%Z; reflexivity.
Qed.

Lemma of_integer_number negative n :
  (- 2 ^ 63 < n < 2 ^ 63)%Z ->
  Binary64.of_integer negative n = number_of negative n.
Proof.
  intros Hn. unfold Binary64.of_integer, number_of.
  destruct (Z.eqb_spec n 0) as [->|Hne]; [destruct negative; reflexivity|].
  destruct (Z.ltb_spec 0 n) as [Hpos|Hneg].
  - rewrite <- (SF2Prim_Prim2SF (of_uint63 _)), Prim2SF_of_Z by lia.
    destruct n; try lia. reflexivity.
  - rewrite <- (SF2Prim_Prim2SF (- _)), opp_spec, Prim2SF_of_Z by lia.
    destruct n as [|p|p]; try lia.
    change (- Z.neg p)%Z with (Z.pos p). cbn [binary_normalize].
    now rewrite SFopp_binary_round.
Qed.

Lemma of_nat_number n :
  (Z.of_nat n < 2 ^ 63)%Z ->
  Binary64.of_nat n = number_of false (Z.of_nat n).
Proof.
  intros Hn. unfold Binary64.of_nat, number_of.
  rewrite <- (SF2Prim_Prim2SF (of_uint63 _)), Prim2SF_of_Z by lia.
  reflexivity.
Qed.

Lemma digits2_pos_bound m : (Z.pos m < 2 ^ Z.pos (digits2_pos m))%Z.
Proof.
  induction m as [m IH|m IH|]; cbn [digits2_pos].
  - rewrite Pos2Z.inj_succ, Z.pow_succ_r by lia. lia.
  - rewrite Pos2Z.inj_succ, Z.pow_succ_r by lia. lia.
  - reflexivity.
Qed.

(** The magnitude of a finite number has at most 53 digits. *)
Lemma mantissa_bound x s m e :
  Prim2SF x = S754_finite s m e -> (Z.pos m < 2 ^ 53)%Z.
Proof.
  intros Hx. pose proof (Prim2SF_valid x) as Hv. rewrite Hx in Hv.
  cbn [valid_binary] in Hv. unfold bounded in Hv.
  apply andb_prop in Hv as [Hc _]. unfold canonical_mantissa, fexp in Hc.
  apply Z.eqb_eq in Hc.
  pose proof (digits2_pos_bound m) as Hd.
  assert (Z.pos (digits2_pos m) <= 53)%Z as Hle
    by (change prec with 53%Z in Hc; lia).
  eapply Z.lt_le_trans; [exact Hd|]. apply Z.pow_le_mono_r; lia.
Qed.

Lemma numerator_signed s m : Binary64.signed s m = numerator s m.
Proof. destruct s; reflexivity. Qed.

Lemma nearest_floor_half s m e :
  (e < 0)%Z ->
  ((2 * numerator s m + 2 ^ (- e)) / (2 * 2 ^ (- e)))%Z = nearest s m e.
Proof.
  intros He. unfold nearest.
  set (n := numerator s m). set (k := (2 ^ (- e))%Z).
  assert (0 < k)%Z as Hk by (subst k; apply Z.pow_pos_nonneg; lia).
  pose proof (Z.div_mod n k ltac:(lia)) as Hn.
  pose proof (Z.mod_pos_bound n k Hk) as Hr.
  destruct (Z.ltb_spec (2 * (n mod k)) k) as [Hlt|Hge]; symmetry.
  - apply Z.div_unique_pos with (r := (2 * (n mod k) + k)%Z); lia.
  - apply Z.div_unique_pos with (r := (2 * (n mod k) - k)%Z); lia.
Qed.

Lemma nearest_bound s m e :
  (e < 0)%Z -> (- Z.pos m <= nearest s m e <= Z.pos m)%Z.
Proof.
  intros He. unfold nearest.
  set (n := numerator s m). set (k := (2 ^ (- e))%Z).
  assert (2 <= k)%Z as Hk.
  { subst k. change 2%Z with (2 ^ 1)%Z at 1. apply Z.pow_le_mono_r; lia. }
  pose proof (Z.div_mod n k ltac:(lia)) as Hn.
  pose proof (Z.mod_pos_bound n k ltac:(lia)) as Hr.
  assert (n = Z.pos m \/ n = (- Z.pos m)%Z) as Hcases
    by (subst n; unfold numerator; destruct s; lia).
  destruct (Z.ltb_spec (2 * (n mod k)) k); nia.
Qed.

(** [Math.round] rounds to the nearest integer, a half going up. *)
Lemma Math_round_rounded x : Binary64.Math_round x = rounded x.
Proof.
  unfold Binary64.Math_round, rounded.
  destruct (Prim2SF x) as [s|s| |s m e] eqn:Hx; try reflexivity.
  destruct (Z.leb_spec 0 e), (Z.ltb_spec e 0); try lia; try reflexivity.
  rewrite numerator_signed, nearest_floor_half by assumption.
  apply of_integer_number.
  pose proof (mantissa_bound x s m e Hx).
  pose proof (nearest_bound s m e ltac:(lia)).
  assert (2 ^ 53 < 2 ^ 63)%Z by reflexivity. lia.
Qed.

Lemma SFeqb_refl_number x : x <> S754_nan -> SFeqb x x = true.
Proof.
  unfold SFeqb. destruct x as [s|s| |s m e]; cbn; try congruence.
  - destruct s; reflexivity.
  - intros _. rewrite Z.compare_refl, Pos.compare_cont_refl.
    destruct s; reflexivity.
Qed.

(** [Math.min] with 50 caps a number at 50. *)
Lemma Math_min_50 x :
  Binary64.Math_min x 50
  = match PrimFloat.compare x 50 with
    | FLt => x
    | FEq | FGt => 50%float
    | FNotComparable => PrimFloat.nan
    end.
Proof.
  unfold Binary64.Math_min, Binary64.is_negative_zero.
  change (PrimFloat.is_nan 50) with false. rewrite orb_false_r.
  unfold PrimFloat.is_nan.
  rewrite (FloatAxioms.eqb_spec x x), (FloatAxioms.ltb_spec x 50),
    (FloatAxioms.ltb_spec 50 x), (FloatAxioms.compare_spec x 50).
  set (fifty := Prim2SF 50).
  assert (Hfifty : fifty = S754_finite false 7036874417766400 (-47))
    by (vm_compute; reflexivity).
  destruct (Prim2SF x) as [s|s| |s m e] eqn:Hx; rewrite Hfifty.
  - destruct s; reflexivity.
  - destruct s; reflexivity.
  - reflexivity.
  - rewrite SFeqb_refl_number by discriminate. rewrite <- Hfifty.
    cbn [negb]. unfold SFltb, flatten_cmp_opt.
    assert (exists c, SFcompare (S754_finite s m e) fifty = Some c) as [c Hc]
      by (rewrite Hfifty; destruct s; cbn [SFcompare]; eauto).
    rewrite Hc.
    destruct c; [|reflexivity|];
      destruct (SFcompare fifty (S754_finite s m e)) as [[| |]|]; reflexivity.
Qed.

Lemma activity_min timelineLength :
  (Z.of_nat (timelineLength * 2) < 2 ^ 63)%Z ->
  Binary64.Math_min (Binary64.of_nat (timelineLength * 2)) (Binary64.of_nat 50)
  = activity timelineLength.
Proof.
  intros Hn. unfold activity. rewrite <- of_nat_number by exact Hn.
  change (Binary64.of_nat 50) with 50%float. apply Math_min_50.
Qed.

Lemma sum_from_fold (l : list (TimelineEntry float)) acc :
  fold_left (fun sum t => (sum + sentiment t)%float) l acc
  = sum_from acc (map sentiment l).
Proof.
  revert acc. induction l as [|e l IH]; intros acc; [reflexivity|].
  cbn [fold_left map sum_from]. apply IH.
Qed.

Lemma addTimelineEntry_score64 (this : Topic float) entry :
  has_room (timeline this) ->
  let tl := timeline (addTimelineEntry this entry) in
  popularityScore (trendData (addTimelineEntry this entry))
  = popularity_score (List.length tl) (map sentiment (firstn 5 tl)).
Proof.
  unfold has_room. intros Hroom. cbn zeta.
  pose proof (addTimelineEntry_length this entry) as Hlen.
  rewrite addTimelineEntry_timeline in Hlen |- *.
  set (tl := sort newest_first (timeline this ++ [entry])) in *.
  assert (2 ^ 32 < 2 ^ 63)%Z as Hpow by reflexivity.
  pose proof (firstn_le_length 5 tl) as Hfive.
  unfold addTimelineEntry, popularity_score, mean_sentiment. fold tl.
  cbn [popularityScore trendData Number.round Number.add Number.mul Number.div
       Number.min Number.of_nat Binary64.arithmetic].
  rewrite Math_round_rounded, activity_min, sum_from_fold, length_map by lia.
  rewrite (of_nat_number (List.length (firstn 5 tl))) by lia.
  reflexivity.
Qed.

Lemma sentimentTrend_numbers (l : list (TimelineEntry float)) n :
  entries_of_numbers l ->
  Forall (fun x => PrimFloat.is_finite x = true) (map sentiment (firstn n l)).
Proof.
  intros Hl. revert n.
  induction Hl as [|e l He Hl IH]; intros [|n]; cbn [firstn map];
    constructor; [|apply IH].
  unfold entry_of_numbers in He. apply andb_prop in He. apply He.
Qed.

(** C4. For a topic whose timeline has room for one more entry, and an
    entry, the sentiments and relevance scores of all of them numbers,
    [addTimelineEntry] puts the entry into the timeline and sorts the whole
    of it by descending date, entries of one date keeping their order of
    insertion; the frequency is the new length, the sentiment trend is the
    sentiments of the first ten entries in that order, numbers again, and
    the popularity score is
    round(min(length * 2, 50) + (avgSentiment + 1) * 25) for the mean
    sentiment of the first five, computed as the language computes it: on
    binary64 numbers, the sentiments added from the most recent on, and
    [round] the nearest integer, a half going up. *)
Theorem addTimelineEntry_spec (this : Topic float) entry :
  has_room (timeline this) ->
  entries_of_numbers (timeline this ++ [entry]) ->
  let after := addTimelineEntry this entry in
  let tl := timeline after in
  Permutation tl (timeline this ++ [entry])
  /\ StronglySorted (fun a b => (date b <= date a)%Z) tl
  /\ (forall d, List.filter (fun e => (date e =? d)%Z) tl
                = List.filter (fun e => (date e =? d)%Z) (timeline this ++ [entry]))
  /\ frequency (trendData after) = List.length tl
  /\ List.length tl = S (List.length (timeline this))
  /\ sentimentTrend (trendData after) = map sentiment (firstn 10 tl)
  /\ Forall (fun x => PrimFloat.is_finite x = true)
            (sentimentTrend (trendData after))
  /\ popularityScore (trendData after)
     = popularity_score (List.length tl) (map sentiment (firstn 5 tl)).
Proof.
  intros Hroom Hnumbers after tl. subst after tl.
  split; [rewrite addTimelineEntry_timeline; apply sort_perm|].
  split; [rewrite addTimelineEntry_timeline; apply sorted_newest_first|].
  split; [intros d; rewrite addTimelineEntry_timeline; apply stable_newest_first|].
  split; [reflexivity|].
  split; [apply addTimelineEntry_length|].
  split; [reflexivity|].
  split; [|apply addTimelineEntry_score64; exact Hroom].
  apply sentimentTrend_numbers. unfold entries_of_numbers.
  eapply Permutation_Forall; [|exact Hnumbers].
  symmetry. apply sort_perm.
Qed.

Lemma addTimelineEntry_spec_witness :
  let this := addTimelineEntries (create "user1" "pricing")
                (firstn 2 Samples.three_entries) in
  let after := addTimelineEntry this (Samples.entry64_at 3 (-1)%float) in
  frequency (trendData after) = 3
  /\ popularityScore (trendData after) = 13%float.
Proof.
  intros this after.
  destruct (addTimelineEntry_spec this (Samples.entry64_at 3 (-1)%float))
    as (_ & _ & _ & Hf & Hl & _ & _ & Hs).
  - reflexivity.
  - repeat constructor.
  - split.
    + subst after. rewrite Hf, Hl. reflexivity.
    + subst after. rewrite Hs. vm_compute. reflexivity.
Defined.

(** Rounding errors show in the score. Three entries with the sentiments
    -1, -0.7 and -0.4: in exact arithmetic the sum before rounding is 13.5
    and the score 14; on binary64 numbers the sum comes out just below
    13.5 and the score is 13. *)
Example three_entries_score :
  popularityScore (trendData (addTimelineEntries (create "user1" "pricing")
                                Samples.three_entries)) = 13%float
  /\ popularityScore (trendData (addTimelineEntries (create "user1" "pricing")
                                  Samples.three_entries_exact)) = 14%Q.
Proof. split; vm_compute; reflexivity. Qed.

(** [Math.round] at the edges: halves go up, also below zero, and the
    largest number below 0.5 goes to 0. *)
Example Math_round_edges :
  Binary64.Math_round 2.5 = 3%float
  /\ Binary64.Math_round (-2.5) = (-2)%float
  /\ Binary64.Math_round 0x1.fffffffffffffp-2 = 0%float
  /\ Binary64.Math_round 13.5 = 14%float
  /\ Binary64.Math_round 0x1.affffffffffffp+3 = 13%float.
Proof. repeat split; vm_compute; reflexivity. Qed.

End TopicBinary64.

(** *** The popularity score in exact arithmetic *)

Section TopicFacts.
Import Topic Spec.




(** *** The bounds of the popularity score *)










(** The scenario of six entries with the sentiments 1, 1, 1, 1, 1, -1,
    oldest first: the five most recent average 0.6, so the score is
    round(12 + 40) = 52. *)
Example six_entries_score :
  let t := addTimelineEntries (create "user1" "pricing") Samples.six_entries in
  frequency (trendData t) = 6
  /\ sentimentTrend (trendData t) = [-1; 1; 1; 1; 1; 1]%Q
  /\ popularityScore (trendData t) = 52%Q.
Proof. vm_compute. repeat split; reflexivity. Qed.

End TopicFacts.

(** ** services/aiService.ts: the keywords of the simulated analysis *)

Section Keywords.
Import AIService Spec.

Lemma existsb_eqb_In w (l : list string) :
  existsb (String.eqb w) l = true <-> In w l.
Proof.
  rewrite existsb_exists. split.
  - intros [x [Hin Heq]]. apply String.eqb_eq in Heq. now subst.
  - intros Hin. exists w. split; [exact Hin | apply String.eqb_refl].
Qed.

Lemma existsb_eqb_not_In w (l : list string) :
  existsb (String.eqb w) l = false <-> ~ In w l.
Proof.
  rewrite <- existsb_eqb_In. destruct (existsb (String.eqb w) l); split;
    congruence.
Qed.

(** *** Dictionaries whose values are a function of the name *)

Section Tabulated.
Context {V : Type}.

Lemma dict_get_tabulate (f : string -> V) w names :
  dict_get w (tabulate f names)
  = if existsb (String.eqb w) names then Some (f w) else None.
Proof.
  induction names as [|k names IH]; [reflexivity|].
  cbn [tabulate map dict_get existsb]. fold (tabulate f names).
  destruct (String.eqb_spec w k) as [->|Hne]; [reflexivity | exact IH].
Qed.

Lemma dict_set_fresh (f : string -> V) w v names :
  ~ In w names ->
  dict_set w v (tabulate f names) = (tabulate f names ++ [(w, v)])%list.
Proof.
  induction names as [|k names IH]; intros Hnin; [reflexivity|].
  cbn [tabulate map dict_set]. fold (tabulate f names).
  destruct (String.eqb_spec w k) as [->|Hne].
  - exfalso. apply Hnin. now left.
  - rewrite IH; [reflexivity|]. intros Hin. apply Hnin. now right.
Qed.

Lemma dict_set_update (f f' : string -> V) w names :
  List.NoDup names -> In w names ->
  (forall k, k <> w -> f' k = f k) ->
  dict_set w (f' w) (tabulate f names) = tabulate f' names.
Proof.
  intros Hnd Hin Hsame. induction Hnd as [|k names Hk Hnd IH]; [destruct Hin|].
  cbn [tabulate map dict_set]. fold (tabulate f names) (tabulate f' names).
  destruct (String.eqb_spec w k) as [->|Hne].
  - f_equal. unfold tabulate. apply map_ext_in. intros a Ha.
    rewrite Hsame; [reflexivity|]. intros ->. contradiction.
  - rewrite (Hsame k) by congruence. f_equal. apply IH.
    destruct Hin as [->|Hin]; [congruence | exact Hin].
Qed.

Lemma filter_tabulate (p : string -> bool) (f : string -> V) names :
  List.filter (fun kv : string * V => p (fst kv)) (tabulate f names)
  = tabulate f (List.filter p names).
Proof.
  induction names as [|k names IH]; [reflexivity|].
  cbn [tabulate map List.filter fst]. fold (tabulate f names).
  rewrite IH. destruct (p k); reflexivity.
Qed.

Lemma entries_tabulate (f : string -> V) names :
  entries (tabulate f names) = tabulate f (property_order names).
Proof.
  unfold entries, property_order. rewrite filter_tabulate.
  unfold tabulate at 3. rewrite map_app. f_equal.
  - unfold tabulate. apply sort_map. reflexivity.
  - apply (filter_tabulate (fun k => negb (is_array_index k))).
Qed.
End Tabulated.

(** *** First occurrences and counts *)

Lemma first_occurrences_snoc ws w :
  first_occurrences (ws ++ [w])
  = if existsb (String.eqb w) (first_occurrences ws)
    then first_occurrences ws
    else (first_occurrences ws ++ [w])%list.
Proof. unfold first_occurrences. rewrite fold_left_app. reflexivity. Qed.

Lemma first_occurrences_In ws k :
  In k (first_occurrences ws) <-> In k ws.
Proof.
  induction ws as [|w ws IH] using rev_ind; [reflexivity|].
  rewrite first_occurrences_snoc, in_app_iff.
  destruct (existsb (String.eqb w) (first_occurrences ws)) eqn:He.
  - apply existsb_eqb_In in He. rewrite IH in *.
    cbn [In]. intuition (subst; auto).
  - rewrite in_app_iff, IH. reflexivity.
Qed.

Lemma first_occurrences_NoDup ws : List.NoDup (first_occurrences ws).
Proof.
  induction ws as [|w ws IH] using rev_ind; [constructor|].
  rewrite first_occurrences_snoc.
  destruct (existsb (String.eqb w) (first_occurrences ws)) eqn:He; [exact IH|].
  apply existsb_eqb_not_In in He.
  apply (Permutation_NoDup (Permutation_cons_append _ _)).
  now constructor.
Qed.

Lemma occurrences_snoc ws w k :
  occurrences (ws ++ [w]) k
  = occurrences ws k + (if String.eqb k w then 1 else 0).
Proof.
  unfold occurrences. rewrite List.filter_app, length_app.
  cbn [List.filter]. destruct (String.eqb k w); reflexivity.
Qed.

Lemma occurrences_absent ws k : ~ In k ws -> occurrences ws k = 0.
Proof.
  unfold occurrences. induction ws as [|w ws IH]; intros Hnin; [reflexivity|].
  cbn [List.filter]. destruct (String.eqb_spec k w) as [->|Hne].
  - exfalso. apply Hnin. now left.
  - apply IH. intros Hin. apply Hnin. now right.
Qed.

(** *** The word-frequency object *)

(** When no token meets a member of [Object.prototype], the object holds
    the tokens in the order of their first occurrence, each with its
    count. *)
Lemma wordFreqOf_tabulate ws :
  ~ In "constructor" ws -> ~ In "__proto__" ws ->
  wordFreqOf ws = tabulate (tally ws) (first_occurrences ws).
Proof.
  induction ws as [|w ws IH] using rev_ind; intros Hc Hp; [reflexivity|].
  rewrite in_app_iff in Hc, Hp. cbn [In] in Hc, Hp.
  assert (Hwc : String.eqb w "constructor" = false)
    by (apply String.eqb_neq; intros ->; tauto).
  assert (Hwp : String.eqb w "__proto__" = false)
    by (apply String.eqb_neq; intros ->; tauto).
  unfold wordFreqOf in *. rewrite fold_left_app. cbn [fold_left].
  rewrite IH by tauto. clear IH.
  unfold count_word, assign, next_freq. rewrite Hwp.
  rewrite dict_get_tabulate, first_occurrences_snoc.
  destruct (existsb (String.eqb w) (first_occurrences ws)) eqn:He.
  - apply existsb_eqb_In in He. unfold tally at 1.
    replace (Count (occurrences ws w + 1)) with (tally (ws ++ [w]) w).
    + apply dict_set_update; [apply first_occurrences_NoDup | exact He |].
      intros k Hk. unfold tally. rewrite occurrences_snoc.
      destruct (String.eqb_spec k w); [congruence | now rewrite Nat.add_0_r].
    + unfold tally. rewrite occurrences_snoc, String.eqb_refl. reflexivity.
  - apply existsb_eqb_not_In in He. unfold inherited. rewrite Hwc, Hwp.
    rewrite dict_set_fresh by exact He.
    unfold tabulate. rewrite map_app. cbn [map]. f_equal.
    + apply map_ext_in. intros k Hk. unfold tally. rewrite occurrences_snoc.
      destruct (String.eqb_spec k w) as [->|];
        [contradiction | now rewrite Nat.add_0_r].
    + unfold tally. rewrite occurrences_snoc, String.eqb_refl.
      rewrite occurrences_absent; [reflexivity|].
      intros Hin. apply He. now apply first_occurrences_In.
Qed.

Lemma keywordsOf_property_order text :
  ~ In "constructor" (words text) -> ~ In "__proto__" (words text) ->
  keywordsOf text
  = firstn 8 (sort (by_occurrences_desc (words text))
                   (property_order (first_occurrences (words text)))).
Proof.
  intros Hc Hp. unfold keywordsOf.
  rewrite (wordFreqOf_tabulate _ Hc Hp), entries_tabulate.
  unfold tabulate.
  rewrite (sort_map _ (by_occurrences_desc (words text)) by_count_desc)
    by reflexivity.
  rewrite firstn_map, map_map. cbn [fst]. apply map_id.
Qed.

Lemma property_order_no_index names :
  forallb (fun k => negb (is_array_index k)) names = true ->
  property_order names = names.
Proof.
  intros Hall. unfold property_order.
  assert (List.filter is_array_index names = []) as ->.
  { induction names as [|k names IH]; [reflexivity|].
    cbn [forallb] in Hall. apply andb_prop in Hall as [Hk Hall].
    cbn [List.filter]. destruct (is_array_index k); [discriminate | auto]. }
  cbn [sort fold_right app].
  induction names as [|k names IH]; [reflexivity|].
  cbn [forallb] in Hall. apply andb_prop in Hall as [Hk Hall].
  cbn [List.filter]. rewrite Hk. f_equal. auto.
Qed.

Lemma generated_keywords text fileName :
  keywords (generateSimulatedAnalysis text fileName) = map JStr (keywordsOf text)
  /\ topics (generateSimulatedAnalysis text fileName)
     = map JStr (firstn 3 (keywordsOf text)).
Proof.
  unfold generateSimulatedAnalysis. destruct (sentimentOf text). split; reflexivity.
Qed.

(** The ranking is the stable sort by descending count. *)
Lemma ranking_sorted_stable ws names :
  let ranked := sort (by_occurrences_desc ws) names in
  Permutation ranked names
  /\ StronglySorted (fun a b => occurrences ws b <= occurrences ws a) ranked
  /\ (forall n, List.filter (fun k => occurrences ws k =? n) ranked
                = List.filter (fun k => occurrences ws k =? n) names).
Proof.
  assert (Hrank : forall x y, (by_occurrences_desc ws x y <= 0)%Z
                              <-> (- Z.of_nat (occurrences ws x)
                                   <= - Z.of_nat (occurrences ws y))%Z)
    by (intros; unfold by_occurrences_desc; lia).
  cbn zeta. split; [apply sort_perm|]. split.
  - pose proof (sort_sorted _ _ Hrank names) as Hs.
    induction Hs as [|a l Hs IH Ha]; constructor; [exact IH|].
    eapply List.Forall_impl; [|exact Ha]. cbv beta. intros; lia.
  - intros n.
    pose proof (sort_stable _ _ Hrank (- Z.of_nat n)%Z names) as Hst.
    assert (Heq : forall l, List.filter (fun k => occurrences ws k =? n) l
                  = List.filter (fun k => (- Z.of_nat (occurrences ws k)
                                           =? - Z.of_nat n)%Z) l).
    { intros l. apply filter_ext. intros k.
      destruct (Nat.eqb_spec (occurrences ws k) n),
               (Z.eqb_spec (- Z.of_nat (occurrences ws k)) (- Z.of_nat n));
        try reflexivity; lia. }
    rewrite !Heq. exact Hst.
Qed.

(** C7, as the code has it. For a text none of whose tokens is
    [constructor] or [__proto__], the keywords are the top 8 tokens by
    descending count, ties in the order in which the frequency object
    lists its names: tokens that are array indices first, ascending, then
    the others in the order of first occurrence. The topics are the first
    3 keywords. When no token is an array index, the ties are in the order
    of first occurrence. *)
Theorem keywords_ranking text fileName :
  let ws := words text in
  let analysis := generateSimulatedAnalysis text fileName in
  ~ In "constructor" ws -> ~ In "__proto__" ws ->
  keywords analysis
  = map JStr (firstn 8 (sort (by_occurrences_desc ws)
                             (property_order (first_occurrences ws))))
  /\ topics analysis = firstn 3 (keywords analysis)
  /\ (forallb (fun k => negb (is_array_index k)) ws = true ->
      keywords analysis = map JStr (ranked_keywords ws)).
Proof.
  intros ws analysis Hc Hp. subst ws analysis.
  destruct (generated_keywords text fileName) as [-> ->].
  rewrite (keywordsOf_property_order text Hc Hp).
  split; [reflexivity|]. split.
  - now rewrite firstn_map.
  - intros Hall. unfold ranked_keywords. rewrite property_order_no_index; [reflexivity|].
    rewrite forallb_forall in *. intros k Hk. apply Hall.
    now apply first_occurrences_In.
Qed.

Lemma keywords_ranking_witness :
  keywords (generateSimulatedAnalysis "Budget 2024: the budget review" None)
  = [JStr "budget"; JStr "2024"; JStr "review"].
Proof.
  destruct (keywords_ranking "Budget 2024: the budget review" None) as [H _].
  - vm_compute. intuition discriminate.
  - vm_compute. intuition discriminate.
  - rewrite H. vm_compute. reflexivity.
Defined.

(** C7, as the specification words it, fails: of two tokens that occur
    once each, the year comes first although it occurs second. *)
Lemma keywords_ranking_counterexample :
  words "Budget 2024" = ["budget"; "2024"]
  /\ keywordsOf "Budget 2024" = ["2024"; "budget"]
  /\ ranked_keywords (words "Budget 2024") = ["budget"; "2024"]
  /\ keywords (generateSimulatedAnalysis "Budget 2024" None)
     <> map JStr (ranked_keywords (words "Budget 2024")).
Proof.
  repeat split; try (vm_compute; reflexivity).
  vm_compute. discriminate.
Qed.

End Keywords.

(** * Further properties of the code *)

(** ** services/aiService.ts: word counts, reading times and list lengths *)

Section AnalysisShape.
Import AIService Vocabulary.

Lemma split_ws_from_nonempty s : forall cur in_sep,
  split_ws_from cur in_sep s <> [].
Proof.
  induction s as [|c s IH]; intros cur in_sep; cbn [split_ws_from];
    [discriminate|].
  destruct (is_space c); [destruct in_sep|]; try apply IH; discriminate.
Qed.

(** Splitting never yields the empty array: the empty text counts as one
    word. *)
Lemma wordCountOf_positive text : 1 <= wordCountOf text.
Proof.
  unfold wordCountOf, split_ws.
  pose proof (split_ws_from_nonempty (chars text) [] false) as Hne.
  destruct (split_ws_from [] false (chars text)); [congruence | cbn; lia].
Qed.

Lemma readingTimeOf_covers wc :
  wc <= 200 * readingTimeOf wc
  /\ (forall n, wc <= 200 * n -> readingTimeOf wc <= n).
Proof.
  unfold readingTimeOf.
  pose proof (Nat.div_mod_eq (wc + 199) 200) as Hd.
  pose proof (Nat.mod_upper_bound (wc + 199) 200) as Hm.
  split; [lia|]. intros n Hn. lia.
Qed.

Lemma simulated_fields text fileName :
  readingTime (generateSimulatedAnalysis text fileName)
  = readingTimeOf (wordCountOf text)
  /\ List.length (entities (generateSimulatedAnalysis text fileName)) = 1.
Proof.
  unfold generateSimulatedAnalysis. destruct (sentimentOf text).
  split; reflexivity.
Qed.

Lemma array_prefix_length n v : List.length (array_prefix n v) <= n.
Proof.
  unfold array_prefix. destruct v as [[| | | |items|]|]; cbn [List.length]; try lia.
  rewrite length_firstn. lia.
Qed.

Lemma keywordsOf_length text : List.length (keywordsOf text) <= 8.
Proof.
  unfold keywordsOf. rewrite length_map, length_firstn. lia.
Qed.

Lemma readingTime_positive text : 1 <= readingTimeOf (wordCountOf text).
Proof.
  pose proof (wordCountOf_positive text) as Hw.
  destruct (readingTimeOf_covers (wordCountOf text)) as [Hc _]. lia.
Qed.

Lemma simulated_well_shaped text fileName :
  well_shaped text (generateSimulatedAnalysis text fileName).
Proof.
  destruct (simulated_fields text fileName) as [Hr He].
  destruct (generated_keywords text fileName) as [Hk Ht].
  unfold well_shaped. rewrite Hr, He, Hk, Ht, !length_map, length_firstn.
  pose proof (keywordsOf_length text). pose proof (readingTime_positive text).
  repeat split; lia.
Qed.

Lemma build_analysis_well_shaped text analysis a :
  build_analysis analysis (readingTimeOf (wordCountOf text)) = Ok a ->
  well_shaped text a.
Proof.
  pose proof (readingTime_positive text) as Hpos.
  pose proof array_prefix_length as Hlen.
  destruct analysis; cbn; try discriminate;
    intros [= <-]; unfold well_shaped; cbn; repeat split; auto; lia.
Qed.



(** Every analysis [analyzeDocument] returns carries the reading time
    ceil(wordCount / 200) of the text, which is at least 1 since even the
    empty text splits into one word, and at most 10 keywords, 5 topics and
    10 entities. *)
Theorem analyzeDocument_well_shaped env text fileName :
  exists a, analyzeDocument env text fileName = Ok a /\ well_shaped text a.
Proof.
  pose proof (simulated_well_shaped text fileName) as Hsim.
  unfold analyzeDocument, analyze_remote.
  destruct (key_missing env); [eexists; split; [reflexivity | exact Hsim]|].
  destruct (chat_completions_create env (analysisPrompt text fileName)) as [c|e];
    cbn [bind try_catch]; [|eexists; split; [reflexivity | exact Hsim]].
  destruct (first_content c) as [s|]; cbn [try_catch];
    [|eexists; split; [reflexivity | exact Hsim]].
  destruct (JSON_parse env s) as [analysis|]; cbn [try_catch];
    [|eexists; split; [reflexivity | exact Hsim]].
  destruct (build_analysis analysis (readingTimeOf (wordCountOf text)))
    as [a|e] eqn:Hb; cbn [try_catch].
  - exists a. split; [reflexivity|]. exact (build_analysis_well_shaped _ _ _ Hb).
  - eexists; split; [reflexivity | exact Hsim].
Qed.

End AnalysisShape.

(** The two reading times of a document: the [save] hook computes
    ceil(wordCount / 225), the analysis ceil(wordCount / 200). Each is the
    least number of minutes that covers the words at its speed, and the
    hook's is never the greater. *)
Theorem reading_time_policies {number : Type} (this : DocumentModel.Doc number) :
  let wc := DocumentModel.wordCount this in
  let recorded :=
    DocumentModel.readingTime (DocumentModel.pre_save_readingTime true this) in
  let analysed := AIService.readingTimeOf wc in
  (wc <= 225 * recorded /\ forall n, wc <= 225 * n -> recorded <= n)
  /\ (wc <= 200 * analysed /\ forall n, wc <= 200 * n -> analysed <= n)
  /\ recorded <= analysed.
Proof.
  intros wc recorded analysed. subst recorded analysed.
  cbn [DocumentModel.pre_save_readingTime DocumentModel.readingTime].
  fold wc. unfold AIService.readingTimeOf.
  pose proof (Nat.div_mod_eq (wc + 199) 200).
  pose proof (Nat.mod_upper_bound (wc + 199) 200).
  pose proof (Nat.div_mod_eq (wc + 224) 225).
  pose proof (Nat.mod_upper_bound (wc + 224) 225).
  repeat split; try lia; intros; lia.
Qed.

(** At 201 words the two disagree: one minute against two. *)
Example reading_times_differ :
  (201 + 224) / 225 = 1 /\ AIService.readingTimeOf 201 = 2.
Proof. split; reflexivity. Qed.

(** ** services/aiService.ts: more on the simulated analysis *)

Section SimulatedMore.
Import AIService.

Lemma dict_set_keys {V : Type} k (v : V) (o : dict V) :
  map fst (dict_set k v o)
  = if existsb (String.eqb k) (map fst o) then map fst o
    else (map fst o ++ [k])%list.
Proof.
  induction o as [|[k' v'] o IH]; [reflexivity|].
  cbn [dict_set map fst existsb].
  destruct (String.eqb_spec k k') as [->|Hne]; [reflexivity|].
  cbn [map fst orb]. rewrite IH.
  destruct (existsb (String.eqb k) (map fst o)); reflexivity.
Qed.

Lemma count_word_keys (o : dict freq) w :
  List.NoDup (map fst o) ->
  List.NoDup (map fst (count_word o w))
  /\ (forall k, In k (map fst (count_word o w)) -> In k (map fst o) \/ k = w).
Proof.
  intros Hnd. unfold count_word, assign.
  destruct (String.eqb w "__proto__"); [split; [exact Hnd | auto]|].
  rewrite dict_set_keys.
  destruct (existsb (String.eqb w) (map fst o)) eqn:He; [split; [exact Hnd | auto]|].
  apply existsb_eqb_not_In in He. split.
  - apply (Permutation_NoDup (Permutation_cons_append _ _)). now constructor.
  - intros k Hk. apply in_app_or in Hk as [Hk|[->|[]]]; auto.
Qed.

Lemma wordFreqOf_keys ws :
  List.NoDup (map fst (wordFreqOf ws))
  /\ (forall k, In k (map fst (wordFreqOf ws)) -> In k ws).
Proof.
  induction ws as [|w ws [IHn IHi]] using rev_ind; [split; [constructor | auto]|].
  unfold wordFreqOf in *. rewrite fold_left_app. cbn [fold_left].
  destruct (count_word_keys (fold_left count_word ws []) w IHn) as [Hn Hi].
  split; [exact Hn|]. intros k Hk. apply in_or_app.
  destruct (Hi k Hk) as [Hin | ->]; [left; auto | right; now left].
Qed.

Lemma filter_split_perm {A : Type} (p : A -> bool) l :
  Permutation (List.filter p l ++ List.filter (fun x => negb (p x)) l) l.
Proof.
  induction l as [|x l IH]; [reflexivity|].
  cbn [List.filter]. destruct (p x); cbn [negb app].
  - now constructor.
  - symmetry. apply Permutation_cons_app. now symmetry.
Qed.

Lemma entries_perm {V : Type} (o : dict V) : Permutation (entries o) o.
Proof.
  unfold entries. rewrite sort_perm.
  apply (filter_split_perm (fun kv => is_array_index (fst kv))).
Qed.

Lemma NoDup_firstn {A : Type} n (l : list A) :
  List.NoDup l -> List.NoDup (firstn n l).
Proof.
  intros H. rewrite <- (firstn_skipn n l) in H.
  now apply NoDup_app_remove_r in H.
Qed.

Lemma In_firstn_In {A : Type} n (l : list A) x : In x (firstn n l) -> In x l.
Proof.
  intros H. rewrite <- (firstn_skipn n l). apply in_or_app. now left.
Qed.

(** The keywords of the simulated analysis, for every text: at most 8,
    no word twice, each a token of the text longer than 3 characters and
    outside the stopword set. *)
Theorem simulated_keywords text fileName :
  exists ks,
    keywords (generateSimulatedAnalysis text fileName) = map JStr ks
    /\ List.length ks <= 8
    /\ List.NoDup ks
    /\ Forall (fun k => In k (words text)
                        /\ 3 < String.length k
                        /\ is_common k = false) ks.
Proof.
  exists (keywordsOf text).
  destruct (generated_keywords text fileName) as [-> _].
  split; [reflexivity|]. split; [apply keywordsOf_length|].
  destruct (wordFreqOf_keys (words text)) as [Hnd Hin].
  pose proof (Permutation_trans
                (sort_perm by_count_desc (entries (wordFreqOf (words text))))
                (entries_perm (wordFreqOf (words text)))) as Hperm.
  unfold keywordsOf. rewrite <- firstn_map. split.
  - apply NoDup_firstn.
    apply (Permutation_NoDup (Permutation_sym (Permutation_map fst Hperm))).
    exact Hnd.
  - apply List.Forall_forall. intros k Hk. apply In_firstn_In in Hk.
    apply (Permutation_in _ (Permutation_map fst Hperm)) in Hk.
    apply Hin in Hk. split; [exact Hk|].
    unfold words in Hk. apply filter_In in Hk as [_ Hkeep].
    unfold keep_word in Hkeep. apply andb_prop in Hkeep as [Hlen Hcommon].
    apply Nat.ltb_lt in Hlen. split; [exact Hlen|].
    now destruct (is_common k).
Qed.

Lemma ratio_pos a b : 0 < a -> 0 < b -> (0 < ratio a b)%Q.
Proof.
  intros Ha Hb. unfold ratio. apply Qlt_shift_div_l.
  - change 0%Q with (inject_Z 0). rewrite <- Zlt_Qlt. lia.
  - rewrite Qmult_0_l. change 0%Q with (inject_Z 0). rewrite <- Zlt_Qlt. lia.
Qed.

(** The sign of the simulated score is its label: positive above 0,
    negative below, neutral at 0; the confidence is 0.7. *)
Theorem simulated_sentiment_sign text fileName :
  exists s l,
    sentiment (generateSimulatedAnalysis text fileName)
    = {| score := JNum s; label := JStr l; confidence := JNum (7 # 10) |}
    /\ ((0 < s)%Q <-> l = "positive")
    /\ ((s < 0)%Q <-> l = "negative")
    /\ ((s == 0)%Q <-> l = "neutral").
Proof.
  exists (fst (sentimentOf text)), (snd (sentimentOf text)).
  split; [apply simulated_sentiment|].
  unfold sentimentOf.
  set (p := count_words positiveWords (toLowerCase text)).
  set (n := count_words negativeWords (toLowerCase text)).
  destruct (Nat.ltb_spec n p) as [Hnp|Hnp]; [|destruct (Nat.ltb_spec p n) as [Hpn|Hpn]];
    cbn [fst snd].
  - assert (0 < Qmin (8 # 10) (ratio p (p + n + 1)))%Q as Hpos.
    { apply Q.min_glb_lt; [reflexivity | apply ratio_pos; lia]. }
    repeat split; intros H; try reflexivity; try discriminate; try assumption; lra.
  - assert (0 < Qmin (8 # 10) (ratio n (p + n + 1)))%Q as Hpos.
    { apply Q.min_glb_lt; [reflexivity | apply ratio_pos; lia]. }
    repeat split; intros H; try reflexivity; try discriminate; lra.
  - repeat split; intros H; try reflexivity; try discriminate; lra.
Qed.

(** *** The prompt *)

Lemma string_length_append a b :
  String.length (a ++ b) = String.length a + String.length b.
Proof. induction a as [|c a IH]; simpl; [reflexivity | now rewrite IH]. Qed.

Lemma substring_prefix_length n : forall s,
  String.length (String.substring 0 n s) = Nat.min n (String.length s).
Proof.
  induction n as [|n IH]; intros [|c s]; cbn; try reflexivity.
  now rewrite IH.
Qed.

Lemma substring_prefix_all n : forall s,
  String.length s <= n -> String.substring 0 n s = s.
Proof.
  induction n as [|n IH]; intros [|c s] Hlen; cbn in *; try reflexivity; try lia.
  rewrite IH; [reflexivity | lia].
Qed.

(** The document content in the prompt is the text itself up to 4000
    characters, and beyond that its first 4000 characters and three dots:
    never more than 4003 characters. *)
Theorem analysisPrompt_content text fileName :
  let content := prompt_content (analysisPrompt text fileName) in
  String.length content <= 4003
  /\ (String.length text <= 4000 -> content = text)
  /\ (4000 < String.length text ->
      content = String.substring 0 4000 text ++ "..."
      /\ String.length content = 4003).
Proof.
  cbn zeta. unfold analysisPrompt. cbn [prompt_content].
  rewrite string_length_append, substring_prefix_length.
  destruct (Nat.ltb_spec 4000 (String.length text)) as [Hlong|Hshort].
  - change (String.length "...") with 3. split; [lia|].
    split; [lia|]. intros _. split; [reflexivity | lia].
  - change (String.length EmptyString) with 0. split; [lia|]. split.
    + intros _. rewrite (substring_prefix_all 4000 text Hshort).
      clear. induction text as [|c t IH]; [reflexivity|].
      change (String c (t ++ EmptyString) = String c t). now rewrite IH.
    + lia.
Qed.

End SimulatedMore.

(** ** services/aiService.ts: compareDocuments *)

Section ComparisonFacts.
Import Comparison.

Lemma intersection_spec (w1 w2 : gset string) : intersection w1 w2 = w1 ∩ w2.
Proof. unfold intersection. apply set_eq. intros x. set_solver. Qed.

Lemma wordSet_size doc : 0 < size (wordSet doc).
Proof.
  unfold wordSet, split_ws.
  pose proof (split_ws_from_nonempty (chars (toLowerCase doc)) [] false) as Hne.
  destruct (split_ws_from [] false (chars (toLowerCase doc))) as [|w ws];
    [congruence|].
  assert (size (list_to_set (w :: ws) : gset string) <> 0); [|lia].
  apply size_non_empty_iff. intros He.
  assert (w ∈ (list_to_set (w :: ws) : gset string)) as Hw by set_solver.
  rewrite He in Hw. set_solver.
Qed.

Lemma union_size doc1 doc2 : 0 < size (union (wordSet doc1) (wordSet doc2)).
Proof.
  pose proof (wordSet_size doc1).
  assert (size (wordSet doc1) <= size (union (wordSet doc1) (wordSet doc2)));
    [|lia].
  apply subseteq_size. unfold union. set_solver.
Qed.

Lemma intersection_le_union (w1 w2 : gset string) :
  size (intersection w1 w2) <= size (union w1 w2).
Proof.
  apply subseteq_size. rewrite intersection_spec. unfold union. set_solver.
Qed.

Lemma number_pos n : 0 < n -> (0 < inject_Z (Z.of_nat n))%Q.
Proof. intros H. change 0%Q with (inject_Z 0). rewrite <- Zlt_Qlt. lia. Qed.

Lemma ratio_le_1 a b : 0 < b -> a <= b -> (AIService.ratio a b <= 1)%Q.
Proof.
  intros Hb Hab. unfold AIService.ratio.
  apply Qle_shift_div_r; [now apply number_pos|].
  rewrite Qmult_1_l, <- Zle_Qle. lia.
Qed.

Lemma ratio_eq_1 a b : 0 < b -> (AIService.ratio a b == 1)%Q <-> a = b.
Proof.
  intros Hb. pose proof (number_pos b Hb) as Hpos. unfold AIService.ratio. split.
  - intros H.
    assert (inject_Z (Z.of_nat a) == inject_Z (Z.of_nat b))%Q as Heq.
    { transitivity (inject_Z (Z.of_nat b)
                    * (inject_Z (Z.of_nat a) / inject_Z (Z.of_nat b)))%Q.
      - symmetry. apply Qmult_div_r. lra.
      - transitivity (inject_Z (Z.of_nat b) * 1)%Q; [|apply Qmult_1_r].
        apply Qmult_comp; [reflexivity | exact H]. }
    apply (proj1 (inject_Z_injective _ _)) in Heq. lia.
  - intros ->. unfold Qdiv. apply Qmult_inv_r. lra.
Qed.

Lemma ratio_eq_0 a b : 0 < b -> (AIService.ratio a b == 0)%Q <-> a = 0.
Proof.
  intros Hb. pose proof (number_pos b Hb) as Hpos. unfold AIService.ratio. split.
  - intros H.
    assert (inject_Z (Z.of_nat a) == inject_Z 0)%Q as Heq.
    { transitivity (inject_Z (Z.of_nat b)
                    * (inject_Z (Z.of_nat a) / inject_Z (Z.of_nat b)))%Q.
      - symmetry. apply Qmult_div_r. lra.
      - transitivity (inject_Z (Z.of_nat b) * 0)%Q; [|apply Qmult_0_r].
        apply Qmult_comp; [reflexivity | exact H]. }
    apply (proj1 (inject_Z_injective _ _)) in Heq. lia.
  - intros ->. change (inject_Z (Z.of_nat 0)) with 0%Q. unfold Qdiv. ring.
Qed.

(** The similarity is a number from 0 to 1: the union of the two word
    sets is never empty, so nothing is divided by zero. *)
Theorem compareDocuments_similarity_range doc1Text doc2Text :
  0 < size (union (wordSet doc1Text) (wordSet doc2Text))
  /\ (0 <= similarity (compareDocuments doc1Text doc2Text) <= 1)%Q.
Proof.
  split; [apply union_size|]. cbn [compareDocuments similarity]. split.
  - apply ratio_nonneg.
  - apply ratio_le_1; [apply union_size | apply intersection_le_union].
Qed.

(** The comparison does not depend on the order of the two documents. *)
Theorem compareDocuments_symmetric doc1Text doc2Text :
  compareDocuments doc1Text doc2Text = compareDocuments doc2Text doc1Text.
Proof.
  unfold compareDocuments. rewrite !intersection_spec. unfold union.
  rewrite (comm_L (∩) (wordSet doc1Text)), (comm_L (∪) (wordSet doc1Text)).
  reflexivity.
Qed.

(** The similarity is 1 exactly when the two documents have the same set
    of lower-cased words, so for two texts that differ in case only; it is
    0 exactly when they share no word. *)
Theorem compareDocuments_extremes doc1Text doc2Text :
  let s := similarity (compareDocuments doc1Text doc2Text) in
  ((s == 1)%Q <-> wordSet doc1Text = wordSet doc2Text)
  /\ (toLowerCase doc1Text = toLowerCase doc2Text -> (s == 1)%Q)
  /\ ((s == 0)%Q <-> wordSet doc1Text ∩ wordSet doc2Text = ∅).
Proof.
  cbn zeta. cbn [compareDocuments similarity].
  pose proof (union_size doc1Text doc2Text) as Hu.
  assert (Hone : AIService.ratio
                   (size (intersection (wordSet doc1Text) (wordSet doc2Text)))
                   (size (union (wordSet doc1Text) (wordSet doc2Text))) == 1
                 <-> wordSet doc1Text = wordSet doc2Text).
  { rewrite (ratio_eq_1 _ _ Hu), intersection_spec. unfold union. split.
    - intros Hsize.
      assert (wordSet doc1Text ∩ wordSet doc2Text
              = wordSet doc1Text ∪ wordSet doc2Text) as Heq.
      { apply set_subseteq_size_eq; [set_solver | lia]. }
      apply set_eq. intros x. split; intros Hx.
      + assert (x ∈ wordSet doc1Text ∩ wordSet doc2Text) by (rewrite Heq; set_solver).
        set_solver.
      + assert (x ∈ wordSet doc1Text ∩ wordSet doc2Text) by (rewrite Heq; set_solver).
        set_solver.
    - intros ->. f_equal. set_solver. }
  split; [exact Hone|]. split.
  - intros Hl. apply Hone. unfold wordSet. now rewrite Hl.
  - rewrite (ratio_eq_0 _ _ Hu), intersection_spec. split.
    + intros Hs. apply leibniz_equiv. now apply size_empty_iff.
    + intros ->. apply size_empty.
Qed.

End ComparisonFacts.

(** ** services/aiService.ts: extractText *)

Section ExtractionFacts.
Import TextExtraction.

Lemma lower_char_idempotent c : lower_char (lower_char c) = lower_char c.
Proof.
  destruct c as [[] [] [] [] [] [] [] []]; reflexivity.
Qed.

Lemma toLowerCase_idempotent s : toLowerCase (toLowerCase s) = toLowerCase s.
Proof.
  unfold toLowerCase, chars, str.
  rewrite list_ascii_of_string_of_list_ascii, map_map. f_equal.
  apply map_ext. apply lower_char_idempotent.
Qed.

(** [extractText] looks at the file type in lower case only. PDF and DOCX
    files always yield their placeholder; a text file yields what the file
    system reads; any other type fails. Every failure carries the one
    message "Failed to extract text from file", whatever its cause. *)
Theorem extractText_outcomes fs filePath fileType :
  let t := toLowerCase fileType in
  extractText fs filePath t = extractText fs filePath fileType
  /\ (forall e, extractText fs filePath fileType = Throw e ->
                e = "Failed to extract text from file")
  /\ (t = "pdf" ->
      extractText fs filePath fileType = Ok (pdf_placeholder (basename fs filePath)))
  /\ (t = "docx" ->
      extractText fs filePath fileType = Ok (docx_placeholder (basename fs filePath)))
  /\ (t = "txt" ->
      extractText fs filePath fileType
      = match readFileSync fs filePath with
        | Ok text => Ok text
        | Throw _ => Throw "Failed to extract text from file"
        end)
  /\ (t <> "txt" -> t <> "pdf" -> t <> "docx" ->
      extractText fs filePath fileType = Throw "Failed to extract text from file").
Proof.
  cbn zeta. unfold extractText, extract_switch.
  rewrite toLowerCase_idempotent.
  destruct (String.eqb_spec (toLowerCase fileType) "txt") as [Ht|Ht].
  { split; [reflexivity|]. split.
    { intros e. destruct (readFileSync fs filePath); cbn; congruence. }
    split; [rewrite Ht; discriminate|]. split; [rewrite Ht; discriminate|].
    split; [|congruence].
    intros _. destruct (readFileSync fs filePath); reflexivity. }
  destruct (String.eqb_spec (toLowerCase fileType) "pdf") as [Hp|Hp].
  { split; [reflexivity|]. split; [cbn; discriminate|].
    split; [reflexivity|]. split; [rewrite Hp; discriminate|].
    split; congruence. }
  destruct (String.eqb_spec (toLowerCase fileType) "docx") as [Hd|Hd].
  { split; [reflexivity|]. split; [cbn; discriminate|].
    split; [congruence|]. split; [reflexivity|].
    split; congruence. }
  split; [reflexivity|]. split; [cbn; congruence|].
  split; [congruence|]. split; [congruence|]. split; [congruence|].
  reflexivity.
Qed.

(** An upload that passes the file filter has the type pdf, docx or txt,
    so its extraction can fail only for a text file that cannot be
    read. *)
Theorem accepted_upload_extraction fs filePath originalname :
  fileFilter fs originalname = true ->
  (fileTypeOf fs originalname = "pdf" \/ fileTypeOf fs originalname = "docx"
   \/ fileTypeOf fs originalname = "txt")
  /\ (forall e, extractText fs filePath (fileTypeOf fs originalname) = Throw e ->
        fileTypeOf fs originalname = "txt"
        /\ exists e', readFileSync fs filePath = Throw e').
Proof.
  unfold fileFilter, fileTypeOf. intros Hf.
  set (ext := toLowerCase (extname fs originalname)) in *.
  cbn [existsb] in Hf. rewrite orb_false_r in Hf.
  apply orb_prop in Hf as [Hf|Hf]; [|apply orb_prop in Hf as [Hf|Hf]];
    apply String.eqb_eq in Hf; rewrite Hf; cbn [slice1].
  - split; [auto|]. intros e. discriminate.
  - split; [auto|]. intros e. discriminate.
  - split; [auto|]. unfold extractText, extract_switch.
    change (toLowerCase "txt") with "txt". cbn [String.eqb].
    change (("txt" =? "txt")%string) with true. cbv iota.
    intros e. destruct (readFileSync fs filePath) as [t|e'] eqn:Hr;
      [discriminate|]. intros _. split; [reflexivity | eauto].
Qed.

Lemma accepted_upload_extraction_witness :
  TextExtraction.fileTypeOf MoreSamples.fs_unreadable "Report.PDF" = "pdf"
  \/ TextExtraction.fileTypeOf MoreSamples.fs_unreadable "Report.PDF" = "docx"
  \/ TextExtraction.fileTypeOf MoreSamples.fs_unreadable "Report.PDF" = "txt".
Proof.
  apply (accepted_upload_extraction MoreSamples.fs_unreadable
           "/uploads/1-2.PDF" "Report.PDF").
  reflexivity.
Defined.

End ExtractionFacts.

(** ** The Document model and the upload route *)

Section DocumentFacts.
Import AIService DocumentModel DocumentMethods Routes Upload Vocabulary.

(** What [save] answers with [Ok] is in the store: the document under its
    id, with the reading time of the first hook; the other documents are
    as before; and the document passed the validators and the dimension
    check, so its vector is absent, empty or of length 1536. *)
Theorem save_stores {number : Type} (schema_valid : Doc number -> bool)
        id (this : Doc number) modified db db' :
  save schema_valid id this modified db = Ok db' ->
  db' !! id = Some (pre_save_readingTime modified this)
  /\ (forall id', id' <> id -> db' !! id' = db !! id')
  /\ schema_valid this = true
  /\ (forall v, embeddings this = Some v ->
        List.length v = 0 \/ List.length v = 1536).
Proof.
  unfold save. destruct (schema_valid this) eqn:Hvalid; [|discriminate].
  destruct (pre_save_embeddings (pre_save_readingTime modified this)) as [[]|e] eqn:Hhook;
    cbn [bind]; [|discriminate].
  intros [= <-]. split; [apply lookup_insert_eq|].
  split; [intros id' Hne; now apply lookup_insert_ne|].
  split; [reflexivity|]. intros v Hv.
  unfold pre_save_embeddings in Hhook.
  rewrite pre_save_readingTime_embeddings, Hv in Hhook.
  destruct (List.length v) as [|n] eqn:Hlen; [now left|]. right.
  cbn [Nat.ltb Nat.leb andb] in Hhook.
  destruct (Nat.eqb_spec (S n) 1536) as [Heq|Hne]; [exact Heq | discriminate].
Qed.

Lemma save_stores_witness :
  exists db',
    save (fun _ => true) "doc1" (newDocument None "report.txt" "one two three")
         true ∅ = Ok db'
    /\ db' !! "doc1"
       = Some (pre_save_readingTime true
                 (newDocument None "report.txt" "one two three")).
Proof.
  eexists. split; [reflexivity|].
  apply (save_stores (fun _ => true) "doc1"
           (newDocument None "report.txt" "one two three") true ∅).
  reflexivity.
Defined.



(** When the remote path of the analysis fails, the analysis is the
    simulated one, whose cast cannot fail. *)
Lemma remote_failure_casts env mongoose text fileName :
  Spec.RemoteFailure env text fileName ->
  exists a fields,
    analyzeDocument env text fileName = Ok a
    /\ cast_analysis mongoose a = Ok fields.
Proof.
  intros Hf.
  destruct (cast_analysis_simulated mongoose text fileName) as [fields Hc].
  exists (generateSimulatedAnalysis text fileName), fields.
  split; [|exact Hc].
  unfold analyzeDocument.
  destruct (remote_failure_throws _ _ _ Hf) as [Hk | [e He]].
  - unfold analyze_remote. rewrite Hk. reflexivity.
  - rewrite He. reflexivity.
Qed.

(** What a run leaves of a stored document. *)
Lemma processDocumentAI_stored env mongoose id oid text fileName st d :
  castObjectId mongoose id = Ok oid ->
  db st !! oid = Some d ->
  exists a v,
    analyzeDocument env text (Some fileName) = Ok a
    /\ db (fst (processDocumentAI env mongoose id text fileName st)) !! oid
       = Some match cast_analysis mongoose a with
              | Ok fields => set_completed fields v (AIService.readingTime a) d
              | Throw _ => set_status failed d
              end.
Proof.
  intros Hid Hd.
  destruct (processDocumentAI_run env mongoose id oid text fileName st Hid)
    as [a [v [s' [Ha [_ ->]]]]].
  exists a, v. split; [exact Ha|].
  destruct (cast_analysis mongoose a); cbn [fst db];
    rewrite !lookup_alter_eq, Hd; reflexivity.
Qed.



(** The progress shown for a document is 0, 50 or 100, and 100 exactly
    when it is completed. After [processDocumentAI] has run on a stored
    document it is 100 when mongoose could cast the analysis to the schema,
    which it can whenever the analysis is the simulated one, and 0 when
    it could not. *)
Theorem progress_after_processing env mongoose id oid text fileName st d :
  castObjectId mongoose id = Ok oid ->
  db st !! oid = Some d ->
  (exists a d',
     analyzeDocument env text (Some fileName) = Ok a
     /\ db (fst (processDocumentAI env mongoose id text fileName st)) !! oid
        = Some d'
     /\ getProcessingProgress d'
        = match cast_analysis mongoose a with Ok _ => 100 | Throw _ => 0 end
     /\ (Spec.RemoteFailure env text (Some fileName) ->
         getProcessingProgress d' = 100))
  /\ (forall {number : Type} (x : Doc number),
        (getProcessingProgress x = 100 <-> processingStatus x = completed)
        /\ (getProcessingProgress x = 50 <-> processingStatus x = processing)
        /\ (getProcessingProgress x = 0
            <-> processingStatus x = pending \/ processingStatus x = failed)).
Proof.
  intros Hid Hd. split.
  - destruct (processDocumentAI_stored env mongoose id oid text fileName st d Hid Hd)
      as [a [v [Ha Hd']]].
    exists a. eexists. split; [exact Ha|]. split; [exact Hd'|].
    destruct (cast_analysis mongoose a) as [fields|e] eqn:Hc.
    + split; [reflexivity|]. reflexivity.
    + split; [reflexivity|]. intros Hf.
      destruct (remote_failure_casts env mongoose text (Some fileName) Hf)
        as [a' [fields [Ha' Hc']]].
      rewrite Ha in Ha'. injection Ha' as <-. congruence.
  - intros number x. unfold getProcessingProgress.
    destruct (processingStatus x); repeat split; intros H;
      try discriminate; try reflexivity; auto;
      destruct H; discriminate.
Qed.

Lemma progress_after_processing_witness :
  exists a d',
    analyzeDocument Samples.env_no_key Samples.report_text (Some "report.txt")
    = Ok a
    /\ db (fst (processDocumentAI Samples.env_no_key Samples.mongoose Samples.doc1
                  Samples.report_text "report.txt" Samples.st_uploaded))
          !! Samples.doc1 = Some d'
    /\ getProcessingProgress d'
       = match cast_analysis Samples.mongoose a with Ok _ => 100 | Throw _ => 0 end
    /\ (Spec.RemoteFailure Samples.env_no_key Samples.report_text
          (Some "report.txt") ->
        getProcessingProgress d' = 100).
Proof.
  apply (progress_after_processing Samples.env_no_key Samples.mongoose
           Samples.doc1 Samples.doc1 Samples.report_text "report.txt"
           Samples.st_uploaded (Samples.uploaded Samples.report_text (Some []))).
  - reflexivity.
  - vm_compute. reflexivity.
Defined.

(** *** Versions *)

(** [addVersion] appends: the versions so far stay as they are, and when
    they are numbered 1, 2, 3, ... the new one continues the numbering. So
    on a document that starts without versions the numbers have neither
    gaps nor duplicates. *)
Theorem addVersion_numbering versions summary changes userId now :
  numbered versions ->
  let versions' := addVersion versions summary changes userId now in
  numbered versions'
  /\ firstn (List.length versions) versions' = versions
  /\ List.length versions' = S (List.length versions)
  /\ (exists v, nth_error versions' (List.length versions) = Some v
                 /\ versionNumber v = S (List.length versions)
                 /\ createdBy v = userId).
Proof.
  unfold numbered, addVersion. intros Hn. cbn zeta.
  rewrite map_app, length_app, Hn. cbn [map List.length versionNumber].
  rewrite Nat.add_1_r, seq_S. split; [reflexivity|].
  split; [now rewrite firstn_app, Nat.sub_diag, firstn_all, app_nil_r|].
  split; [reflexivity|].
  eexists. split.
  - rewrite nth_error_app2, Nat.sub_diag by lia. reflexivity.
  - cbn [versionNumber createdBy]. split; [lia | reflexivity].
Qed.

Lemma addVersion_numbering_witness :
  numbered (addVersion (addVersion [] "first" "created" "user1" 10)
                       "second" "edited" "user2" 20).
Proof.
  apply (addVersion_numbering (addVersion [] "first" "created" "user1" 10)
           "second" "edited" "user2" 20).
  apply (addVersion_numbering [] "first" "created" "user1" 10).
  reflexivity.
Defined.

(** *** Analytics *)

Lemma count_word_total (o : dict freq) w :
  w <> "constructor" -> w <> "__proto__" ->
  Forall (fun kv => exists n, snd kv = Count n) o ->
  total_count (count_word o w) = S (total_count o)
  /\ Forall (fun kv => exists n, snd kv = Count n) (count_word o w).
Proof.
  intros Hc Hp. unfold count_word, assign, next_freq, AIService.inherited.
  apply String.eqb_neq in Hc, Hp. rewrite Hp, Hc.
  induction o as [|[k v] o IH]; intros Hall.
  - cbn. split; [reflexivity|]. repeat constructor. eauto.
  - inversion Hall as [|? ? [n Hv] Hrest]; subst. cbn [snd] in Hv. subst v.
    cbn [dict_get dict_set].
    destruct (String.eqb w k).
    + cbn [total_count fold_right snd]. fold (total_count o).
      split; [lia|]. constructor; [cbn; eauto | exact Hrest].
    + destruct (IH Hrest) as [Ht Hf].
      cbn [total_count fold_right snd]. fold (total_count o).
      match goal with
      | |- context [dict_set w ?x o] => fold (total_count (dict_set w x o))
      end.
      rewrite Ht. split; [lia|]. constructor; [cbn; eauto | exact Hf].
Qed.

Lemma plain_value v :
  inherited v = None -> v <> "constructor" /\ v <> "__proto__".
Proof.
  unfold inherited. intros H. split; intros ->; discriminate.
Qed.

Lemma inherited_plain v : is_member v = false -> inherited v = None.
Proof.
  unfold is_member. intros H. apply existsb_eqb_not_In in H. unfold inherited.
  destruct (String.eqb_spec v "__proto__") as [->|_];
    [exfalso; apply H; cbn; tauto|].
  destruct (String.eqb_spec v "constructor") as [->|_];
    [exfalso; apply H; cbn; tauto|].
  match goal with
  | |- context [existsb (String.eqb v) ?l] =>
      destruct (existsb (String.eqb v) l) eqn:He; [|reflexivity]
  end.
  apply existsb_eqb_In in He. exfalso. apply H. cbn in He |- *. tauto.
Qed.

Lemma inherited_member v : is_member v = true -> exists s, inherited v = Some s.
Proof.
  unfold is_member. intros H. apply existsb_eqb_In in H. cbn in H.
  repeat (destruct H as [<-|H]; [eexists; reflexivity|]). contradiction.
Qed.

Lemma plain_no_members values :
  plain values -> ~ In "constructor" values /\ ~ In "__proto__" values.
Proof.
  unfold plain. rewrite List.Forall_forall. intros H.
  split; intros Hin; apply H in Hin; vm_compute in Hin; discriminate.
Qed.

(** On a value that is no member of [Object.prototype], counting values
    is counting words. *)
Lemma count_value_plain counts v :
  inherited v = None -> count_value counts v = count_word counts v.
Proof.
  intros Hv. destruct (plain_value v Hv) as [Hc Hp].
  apply String.eqb_neq in Hc, Hp.
  unfold count_value, count_word, next_count, next_freq, AIService.inherited.
  now rewrite Hv, Hc, Hp.
Qed.

Lemma countValues_wordFreqOf values :
  plain values -> countValues values = wordFreqOf values.
Proof.
  unfold plain, countValues, wordFreqOf.
  induction values as [|v values IH] using rev_ind; intros Hall; [reflexivity|].
  apply Forall_app in Hall as [Hall Hv]. inversion Hv as [|? ? Hv' _]; subst.
  rewrite !fold_left_app. cbn [fold_left]. rewrite (IH Hall).
  now apply count_value_plain, inherited_plain.
Qed.

Lemma countValues_total values :
  plain values -> total_count (countValues values) = List.length values.
Proof.
  intros Hplain. rewrite (countValues_wordFreqOf values Hplain).
  destruct (plain_no_members values Hplain) as [Hc Hp]. unfold wordFreqOf.
  assert (total_count (fold_left count_word values []) = List.length values
          /\ Forall (fun kv => exists n, snd kv = Count n)
                    (fold_left count_word values [])) as [H _]; [|exact H].
  clear Hplain.
  induction values as [|w values IH] using rev_ind; [split; [reflexivity | constructor]|].
  rewrite in_app_iff in Hc, Hp. cbn [In] in Hc, Hp.
  rewrite fold_left_app, length_app. cbn [fold_left List.length].
  destruct IH as [Ht Hf]; [tauto | tauto |].
  destruct (count_word_total (fold_left count_word values []) w) as [Ht' Hf'];
    [intros ->; tauto | intros ->; tauto | exact Hf |].
  split; [lia | exact Hf'].
Qed.

Lemma dict_get_set_same {V : Type} k (v : V) (o : dict V) :
  dict_get k (dict_set k v o) = Some v.
Proof.
  induction o as [|[k' v'] o IH]; cbn [dict_set dict_get].
  - now rewrite String.eqb_refl.
  - destruct (String.eqb k k') eqn:E; cbn [dict_get]; rewrite E;
      [reflexivity | exact IH].
Qed.

Lemma dict_get_set_other {V : Type} k k' (v : V) (o : dict V) :
  k <> k' -> dict_get k (dict_set k' v o) = dict_get k o.
Proof.
  intros Hne. pose proof (proj2 (String.eqb_neq k k') Hne) as Hb.
  induction o as [|[k0 v0] o IH]; cbn [dict_set dict_get].
  - now rewrite Hb.
  - destruct (String.eqb_spec k' k0) as [->|Hk]; cbn [dict_get].
    + now rewrite Hb.
    + destruct (String.eqb k k0); [reflexivity | exact IH].
Qed.

(** Counting a value leaves the other names as they are. *)
Lemma dict_get_count_value counts v k :
  k <> v -> dict_get k (count_value counts v) = dict_get k counts.
Proof.
  intros Hne. unfold count_value, assign.
  destruct (String.eqb v "__proto__"); [reflexivity|].
  now apply dict_get_set_other.
Qed.

Lemma dict_get_count_value_same counts k :
  dict_get k (count_value counts k)
  = if String.eqb k "__proto__" then dict_get k counts
    else Some (next_count counts k).
Proof.
  unfold count_value, assign.
  destruct (String.eqb k "__proto__"); [reflexivity|].
  apply dict_get_set_same.
Qed.

(** A value that names no member is counted wherever it stands among the
    others. *)
Lemma countValues_get values k :
  is_member k = false ->
  dict_get k (countValues values)
  = if existsb (String.eqb k) values
    then Some (Count (Spec.occurrences values k)) else None.
Proof.
  intros Hk. pose proof (inherited_plain k Hk) as Hi.
  destruct (plain_value k Hi) as [_ Hp]. apply String.eqb_neq in Hp.
  unfold countValues.
  induction values as [|v values IH] using rev_ind; [reflexivity|].
  rewrite fold_left_app. cbn [fold_left].
  rewrite existsb_app, occurrences_snoc. cbn [existsb]. rewrite orb_false_r.
  destruct (String.eqb_spec k v) as [<-|Hne].
  - rewrite dict_get_count_value_same, Hp.
    unfold next_count. rewrite IH, Hi, orb_true_r.
    destruct (existsb (String.eqb k) values) eqn:He; [reflexivity|].
    apply existsb_eqb_not_In in He. now rewrite occurrences_absent.
  - rewrite dict_get_count_value by exact Hne.
    now rewrite IH, orb_false_r, Nat.add_0_r.
Qed.

(** A value that names a member never gets a number. *)
Lemma countValues_not_counted values k n :
  is_member k = true -> dict_get k (countValues values) <> Some (Count n).
Proof.
  intros Hk. destruct (inherited_member k Hk) as [s Hs]. unfold countValues.
  revert n. induction values as [|v values IH] using rev_ind; intros n;
    [discriminate|].
  rewrite fold_left_app. cbn [fold_left].
  destruct (String.eqb_spec k v) as [<-|Hne].
  - rewrite dict_get_count_value_same.
    destruct (String.eqb k "__proto__"); [apply IH|].
    unfold next_count. rewrite Hs.
    destruct (dict_get k (fold_left count_value values [])) as [[m|t]|] eqn:Hg;
      try discriminate.
    exfalso. exact (IH m eq_refl).
  - rewrite dict_get_count_value by exact Hne. apply IH.
Qed.

Lemma countValues_distribution values :
  distribution values (countValues values).
Proof.
  split; [|split].
  - intros k Hin Hk. rewrite countValues_get by exact Hk.
    apply existsb_eqb_In in Hin. now rewrite Hin.
  - intros k n. apply countValues_not_counted.
  - apply countValues_total.
Qed.

(** For a user without documents [getUserAnalytics] returns the empty
    object. Otherwise each of the three distributions is made of the
    values the aggregation collected: a value that names no member of
    [Object.prototype] is listed with the number of its occurrences; a
    value that names one, [toString] say, is never listed with a number;
    and when no value names a member the counts of a distribution add up
    to the number of values collected. *)
Theorem getUserAnalytics_distributions result rest :
  getUserAnalytics [] = None
  /\ exists a,
       getUserAnalytics (result :: rest) = Some a
       /\ analytics_totalDocuments a = totalDocuments result
       /\ distribution (fileTypes result) (fileTypeDistribution a)
       /\ distribution (sentiments result) (sentimentDistribution a)
       /\ distribution (processingStatuses result)
                       (processingStatusDistribution a).
Proof.
  split; [reflexivity|]. eexists. split; [reflexivity|].
  cbn [analytics_totalDocuments fileTypeDistribution sentimentDistribution
       processingStatusDistribution].
  repeat split; apply countValues_distribution.
Qed.

(** A value that does name a member of [Object.prototype] is not counted:
    a sentiment label [toString], which an update can store since it runs
    no validator, leaves a string in the distribution. *)
Example countValues_member :
  countValues ["neutral"; "toString"; "toString"]
  = [("neutral", Count 1);
     ("toString", Text "function toString() { [native code] }11")].
Proof. reflexivity. Qed.

End DocumentFacts.

Lemma getUserAnalytics_distributions_witness :
  exists a,
    DocumentMethods.getUserAnalytics [MoreSamples.three_documents] = Some a
    /\ DocumentMethods.analytics_totalDocuments a = 3
    /\ Vocabulary.total_count (DocumentMethods.fileTypeDistribution a) = 3
    /\ JS.dict_get "pdf" (DocumentMethods.fileTypeDistribution a)
       = Some (AIService.Count 2).
Proof.
  destruct (getUserAnalytics_distributions MoreSamples.three_documents [])
    as [_ [a [Ha [Hn [[Hget [_ Htotal]] _]]]]].
  exists a. split; [exact Ha|]. split; [exact Hn|]. split.
  - apply Htotal. repeat constructor.
  - apply (Hget "pdf"); [now left | reflexivity].
Defined.

(** ** models/Topic.ts: sequences of calls *)

Section TopicSequences.
Import Topic Number Vocabulary.
Context {number : Type} {arithmetic : Arithmetic number}.

Lemma addTimelineEntries_snoc (this : Topic number) entries entry :
  addTimelineEntries this (entries ++ [entry])
  = addTimelineEntry (addTimelineEntries this entries) entry.
Proof. unfold addTimelineEntries. now rewrite fold_left_app. Qed.

Lemma timeline_adds_perm entries : forall this : Topic number,
  Permutation (timeline (addTimelineEntries this entries))
              (timeline this ++ entries).
Proof.
  induction entries as [|e entries IH]; intros this.
  - cbn. now rewrite app_nil_r.
  - cbn [addTimelineEntries fold_left]. fold (addTimelineEntries (addTimelineEntry this e) entries).
    rewrite IH, addTimelineEntry_timeline, sort_perm, <- app_assoc. reflexivity.
Qed.

Lemma addTimelineEntry_trend (this : Topic number) entry :
  trendData (addTimelineEntry this entry)
  = trend_of (timeline (addTimelineEntry this entry)).
Proof. reflexivity. Qed.

(** After one or more calls the timeline holds the old entries and the
    new ones, newest first, the frequency is their number, and the
    sentiment trend has one value for each of the first ten. *)
Theorem timeline_after_calls (this : Topic number) entries :
  entries <> [] ->
  let after := addTimelineEntries this entries in
  let n := List.length (timeline this) + List.length entries in
  Permutation (timeline after) (timeline this ++ entries)
  /\ StronglySorted (fun a b => (date b <= date a)%Z) (timeline after)
  /\ frequency (trendData after) = n
  /\ List.length (sentimentTrend (trendData after)) = Nat.min 10 n
  /\ (userId after = userId this /\ name after = name this).
Proof.
  intros Hne. cbn zeta.
  pose proof (timeline_adds_perm entries this) as Hperm.
  pose proof (Permutation_length Hperm) as Hlen. rewrite length_app in Hlen.
  destruct (exists_last Hne) as [es [e ->]].
  rewrite addTimelineEntries_snoc in *.
  split; [exact Hperm|]. split.
  - rewrite addTimelineEntry_timeline. apply sorted_newest_first.
  - rewrite addTimelineEntry_trend. cbn [trend_of frequency sentimentTrend].
    rewrite length_map, length_firstn, Hlen. split; [reflexivity|].
    split; [reflexivity|]. cbn [addTimelineEntry userId name].
    clear. unfold addTimelineEntries. revert this.
    induction es as [|x es IH]; intros this; [split; reflexivity|].
    cbn [fold_left]. destruct (IH (addTimelineEntry this x)) as [-> ->].
    split; reflexivity.
Qed.

(** A list sorted by a rank that no two of its elements share is the only
    sorted arrangement of its elements. *)
Lemma sorted_perm_unique {A : Type} (rank : A -> Z) (l1 : list A) : forall l2,
  StronglySorted (fun x y => (rank x <= rank y)%Z) l1 ->
  StronglySorted (fun x y => (rank x <= rank y)%Z) l2 ->
  Permutation l1 l2 ->
  List.NoDup (map rank l1) ->
  l1 = l2.
Proof.
  induction l1 as [|a l1 IH]; intros l2 Hs1 Hs2 Hperm Hnd.
  - apply Permutation_nil in Hperm. now subst.
  - destruct l2 as [|b l2].
    { apply Permutation_sym, Permutation_nil in Hperm. discriminate. }
    inversion Hs1 as [|? ? Hs1' Ha]; subst.
    inversion Hs2 as [|? ? Hs2' Hb]; subst.
    cbn [map] in Hnd. inversion Hnd as [|? ? Hnotin Hnd']; subst.
    assert (a = b) as ->.
    { assert (In a (b :: l2)) as Hina
        by (eapply Permutation_in; [exact Hperm | now left]).
      assert (In b (a :: l1)) as Hinb
        by (eapply Permutation_in; [exact (Permutation_sym Hperm) | now left]).
      destruct Hina as [Heq|Hina]; [now subst|].
      destruct Hinb as [Heq|Hinb]; [now subst|].
      rewrite List.Forall_forall in Ha, Hb.
      pose proof (Ha b Hinb). pose proof (Hb a Hina).
      exfalso. apply Hnotin. replace (rank a) with (rank b) by lia.
      now apply in_map. }
    f_equal. apply IH; try assumption.
    now apply Permutation_cons_inv in Hperm.
Qed.

Lemma NoDup_map_opp {A : Type} (key : A -> Z) l :
  List.NoDup (map key l) -> List.NoDup (map (fun x => (- key x)%Z) l).
Proof.
  induction l as [|x l IH]; cbn [map]; intros Hnd; [constructor|].
  inversion Hnd as [|? ? Hnotin Hnd']; subst. constructor; [|auto].
  intros Hin. apply Hnotin. apply in_map_iff in Hin as [y [Hy Hin]].
  apply in_map_iff. exists y. split; [lia | exact Hin].
Qed.

Lemma addTimelineEntries_identity entries : forall this : Topic number,
  let after := addTimelineEntries this entries in
  userId after = userId this /\ name after = name this
  /\ description after = description this /\ keywords after = keywords this
  /\ documentIds after = documentIds this /\ isActive after = isActive this.
Proof.
  induction entries as [|e entries IH]; intros this; cbn zeta.
  - repeat split.
  - change (addTimelineEntries this (e :: entries))
      with (addTimelineEntries (addTimelineEntry this e) entries).
    destruct (IH (addTimelineEntry this e)) as (-> & -> & -> & -> & -> & ->).
    repeat split.
Qed.

(** When no two entries have the same date, the order of the
    [addTimelineEntry] calls does not matter: the topic that results, with
    its timeline and its trend data, is the same. *)
Theorem addTimelineEntries_order (this : Topic number) entries entries' :
  entries <> [] ->
  Permutation entries entries' ->
  List.NoDup (map date (timeline this ++ entries)) ->
  addTimelineEntries this entries = addTimelineEntries this entries'.
Proof.
  intros Hne Hperm Hnd.
  assert (entries' <> []) as Hne'.
  { intros ->. apply Permutation_sym, Permutation_nil in Hperm. contradiction. }
  assert (Htl : timeline (addTimelineEntries this entries)
                = timeline (addTimelineEntries this entries')).
  { pose proof (timeline_adds_perm entries this) as Hp.
    pose proof (timeline_adds_perm entries' this) as Hp'.
    apply (sorted_perm_unique (fun e => (- date e)%Z)).
    - destruct (exists_last Hne) as [es [e ->]].
      rewrite addTimelineEntries_snoc, addTimelineEntry_timeline.
      apply (sort_sorted newest_first _ newest_first_rank).
    - destruct (exists_last Hne') as [es [e ->]].
      rewrite addTimelineEntries_snoc, addTimelineEntry_timeline.
      apply (sort_sorted newest_first _ newest_first_rank).
    - rewrite Hp, Hp'. now apply Permutation_app_head.
    - apply NoDup_map_opp.
      apply (Permutation_NoDup (Permutation_sym (Permutation_map date Hp))).
      exact Hnd. }
  pose proof (addTimelineEntries_identity entries this) as Hid.
  pose proof (addTimelineEntries_identity entries' this) as Hid'.
  cbn zeta in Hid, Hid'.
  destruct (exists_last Hne) as [es [e ->]].
  destruct (exists_last Hne') as [es' [e' ->]].
  rewrite !addTimelineEntries_snoc in *.
  destruct Hid as (H1 & H2 & H3 & H4 & H5 & H6).
  destruct Hid' as (H1' & H2' & H3' & H4' & H5' & H6').
  cbn [addTimelineEntry userId name description keywords documentIds isActive]
    in H1, H2, H3, H4, H5, H6, H1', H2', H3', H4', H5', H6'.
  rewrite !addTimelineEntry_timeline in Htl.
  unfold addTimelineEntry. rewrite Htl. congruence.
Qed.

End TopicSequences.

Section TopicWindow.
Import Topic Spec Vocabulary.

Lemma timeline_after_calls_witness :
  frequency (trendData (addTimelineEntries (create "user1" "pricing")
                          Samples.six_entries)) = 0 + 6.
Proof.
  apply (timeline_after_calls (create "user1" "pricing") Samples.six_entries).
  discriminate.
Defined.

Lemma addTimelineEntries_order_witness :
  addTimelineEntries (create "user1" "pricing") Samples.six_entries
  = addTimelineEntries (create "user1" "pricing") MoreSamples.six_entries_reversed.
Proof.
  apply (addTimelineEntries_order (create "user1" "pricing") Samples.six_entries
           MoreSamples.six_entries_reversed).
  - discriminate.
  - apply Permutation_rev.
  - cbn. repeat constructor; cbn; intuition discriminate.
Defined.

(** *** A closer bound on the popularity score *)




End TopicWindow.

(** ** models/User.ts: quotas, subscriptions and names *)

Section UserFacts.
Import UserModel.

Lemma getDocumentLimit_cases this :
  getDocumentLimit this = documentLimits (subscription this)
  /\ (0 < getDocumentLimit this)%Z.
Proof. unfold getDocumentLimit. destruct (subscription this); cbn; lia. Qed.

Lemma getStorageLimit_cases this :
  getStorageLimit this = storageLimits (subscription this)
  /\ (0 < getStorageLimit this)%Z.
Proof.
  unfold getStorageLimit. destruct (subscription this); split; reflexivity.
Qed.

(** The checks and the remainders of a user's quotas agree. One more
    document may be uploaded exactly when documents remain. A file that
    has storage space is no larger than the remaining storage, and for a
    user within the limit every file no larger than the remaining storage
    has space; the usage percentage of such a user is between 0 and 100. *)
Theorem quota_checks_agree this fileSize :
  (canUploadMore this = true <-> (0 < remainingDocuments this)%Z)
  /\ (hasStorageSpace this fileSize = true ->
      (fileSize <= remainingStorage this)%Z)
  /\ ((0 <= storageUsed this <= getStorageLimit this)%Z ->
      (hasStorageSpace this fileSize = true
       <-> (fileSize <= remainingStorage this)%Z)
      /\ (0 <= storageUsagePercentage this <= 100)%Q).
Proof.
  unfold canUploadMore, hasStorageSpace, remainingDocuments, remainingStorage,
    storageUsagePercentage.
  destruct (getStorageLimit_cases this) as [_ Hpos].
  rewrite Z.ltb_lt, Z.leb_le. split; [lia|]. split; [lia|].
  intros [Hlo Hhi]. split; [lia|].
  apply Z.ltb_lt in Hpos as Hb. rewrite Hb.
  assert (0 < inject_Z (getStorageLimit this))%Q as Hq
    by (change 0%Q with (inject_Z 0); now rewrite <- Zlt_Qlt).
  assert (0 <= inject_Z (storageUsed this) / inject_Z (getStorageLimit this) <= 1)%Q
    as [H0 H1].
  { split.
    - apply Qle_shift_div_l; [exact Hq|]. rewrite Qmult_0_l.
      change 0%Q with (inject_Z 0). now rewrite <- Zle_Qle.
    - apply Qle_shift_div_r; [exact Hq|]. rewrite Qmult_1_l.
      now rewrite <- Zle_Qle. }
  lra.
Qed.

Lemma quota_checks_agree_witness :
  hasStorageSpace MoreSamples.pro_user 1024 = true
  <-> (1024 <= remainingStorage MoreSamples.pro_user)%Z.
Proof.
  apply (quota_checks_agree MoreSamples.pro_user 1024).
  split; vm_compute; discriminate.
Defined.

(** The [save] hook on the subscription never changes whether the
    subscription is active. A free user is always active and leaves the
    hook without an expiry date; a paying user is active exactly until the
    expiry date, and not at all without one. *)
Theorem subscription_hook_keeps_activity this now :
  isSubscriptionActive (pre_save_subscription this) now
  = isSubscriptionActive this now
  /\ (subscription this = free ->
      isSubscriptionActive this now = true
      /\ subscriptionExpiry (pre_save_subscription this) = None)
  /\ (subscription this <> free ->
      pre_save_subscription this = this
      /\ (isSubscriptionActive this now = true
          <-> exists expiry, subscriptionExpiry this = Some expiry
                             /\ (now < expiry)%Z)).
Proof.
  unfold isSubscriptionActive, pre_save_subscription.
  destruct (subscription this) eqn:Hs; cbn [subscription subscriptionExpiry].
  - split; [reflexivity|]. split; [auto | congruence].
  - rewrite Hs. split; [reflexivity|]. split; [discriminate|]. intros _.
    split; [reflexivity|].
    destruct (subscriptionExpiry this) as [e|].
    + rewrite Z.ltb_lt. split; [eauto | intros [e' [[= <-] He]]; exact He].
    + split; [discriminate | intros [e' [Hn _]]; discriminate].
  - rewrite Hs. split; [reflexivity|]. split; [discriminate|]. intros _.
    split; [reflexivity|].
    destruct (subscriptionExpiry this) as [e|].
    + rewrite Z.ltb_lt. split; [eauto | intros [e' [[= <-] He]]; exact He].
    + split; [discriminate | intros [e' [Hn _]]; discriminate].
Qed.

(** *** Names *)

Lemma trim_start_head s c rest :
  trim_start s = c :: rest -> is_space c = false.
Proof.
  induction s as [|x s IH]; cbn [trim_start]; [discriminate|].
  destruct (is_space x) eqn:Hx; [exact IH|]. intros [= <- _]. exact Hx.
Qed.

Lemma trim_start_keeps_last s front c :
  trim_start s = (front ++ [c])%list -> exists front', s = (front' ++ [c])%list.
Proof.
  revert front. induction s as [|x s IH]; intros front; cbn [trim_start].
  - intros H. destruct front; discriminate.
  - destruct (is_space x); [|eauto].
    intros H. destruct (IH front H) as [f' ->]. exists (x :: f'). reflexivity.
Qed.

Lemma trim_start_fixed s c rest :
  s = c :: rest -> is_space c = false -> trim_start s = s.
Proof. intros -> Hc. cbn [trim_start]. now rewrite Hc. Qed.

Lemma trim_fixed l f fs front c :
  l = f :: fs -> is_space f = false ->
  l = (front ++ [c])%list -> is_space c = false ->
  rev (trim_start (rev (trim_start l))) = l.
Proof.
  intros Hl1 Hf Hl2 Hc. rewrite (trim_start_fixed _ _ _ Hl1 Hf).
  assert (rev l = c :: rev front) as Hr
    by (rewrite Hl2, rev_app_distr; reflexivity).
  rewrite (trim_start_fixed _ _ _ Hr Hc). apply rev_involutive.
Qed.

Lemma chars_append a b : chars (a ++ b) = (chars a ++ chars b)%list.
Proof.
  induction a as [|c a IH]; [reflexivity|].
  change (chars (String c (a ++ b)) = (c :: chars a ++ chars b)%list).
  unfold chars in *. cbn [list_ascii_of_string]. now rewrite IH.
Qed.

Lemma trim_edges s :
  (forall c rest, chars (trim s) = c :: rest -> is_space c = false)
  /\ (forall front c, chars (trim s) = (front ++ [c])%list -> is_space c = false).
Proof.
  unfold trim, chars, str. rewrite list_ascii_of_string_of_list_ascii.
  set (l := trim_start (list_ascii_of_string s)).
  split.
  - intros c rest H.
    assert (rev (c :: rest) = trim_start (rev l)) as Hr
      by (rewrite <- H; now rewrite rev_involutive).
    cbn [rev] in Hr. symmetry in Hr.
    apply trim_start_keeps_last in Hr as [f' Hr].
    assert (l = c :: rev f') as Hl.
    { rewrite <- (rev_involutive l), Hr, rev_app_distr. reflexivity. }
    subst l. eapply trim_start_head. exact Hl.
  - intros front c H.
    assert (trim_start (rev l) = c :: rev front) as Hr.
    { rewrite <- (rev_involutive (trim_start (rev l))), H, rev_app_distr.
      reflexivity. }
    eapply trim_start_head. exact Hr.
Qed.

(** The full name never begins or ends with white space, whatever the two
    names are; for names that are themselves trimmed and not empty it is
    the first name, a space and the last name. *)
Theorem getFullName_trimmed this :
  (forall c rest, chars (getFullName this) = c :: rest -> is_space c = false)
  /\ (forall front c, chars (getFullName this) = (front ++ [c])%list ->
        is_space c = false)
  /\ (forall f fs ls l,
        chars (firstName this) = f :: fs -> is_space f = false ->
        chars (lastName this) = (ls ++ [l])%list -> is_space l = false ->
        getFullName this = firstName this ++ " " ++ lastName this).
Proof.
  unfold getFullName. destruct (trim_edges (firstName this ++ " " ++ lastName this))
    as [Hhead Hlast].
  split; [exact Hhead|]. split; [exact Hlast|].
  intros f fs ls l Hf Hfs Hl Hls. unfold trim.
  rewrite (trim_fixed (chars (firstName this ++ " " ++ lastName this))
             f (fs ++ chars " " ++ chars (lastName this))
             (chars (firstName this) ++ chars " " ++ ls) l).
  - unfold str, chars. apply string_of_list_ascii_of_string.
  - rewrite !chars_append, Hf. reflexivity.
  - exact Hfs.
  - rewrite !chars_append, Hl, <- !app_assoc. reflexivity.
  - exact Hls.
Qed.

Lemma getFullName_trimmed_witness :
  getFullName MoreSamples.pro_user = "Ada Lovelace".
Proof.
  destruct (getFullName_trimmed MoreSamples.pro_user) as [_ [_ H]].
  apply (H "A"%char (chars "da") (chars "Lovelac") "e"%char); reflexivity.
Defined.

End UserFacts.

(** ** middleware/auth.ts: the gates *)

Section GateFacts.
Import UserModel AuthMiddleware.

(** The subscription gate lets a request pass exactly when a user is
    attached whose level is at least the required one. Without a user it
    answers 401, and to a user of a lower level 403; it answers nothing
    else. Whoever passes the enterprise gate passes the pro gate. *)
Theorem requireSubscription_gate requiredLevel user :
  (requireSubscription requiredLevel user = Next
   <-> exists u, user = Some u
                 /\ subscriptionLevels requiredLevel
                    <= subscriptionLevels (subscription u))
  /\ (requireSubscription requiredLevel user = Respond 401 <-> user = None)
  /\ (requireSubscription requiredLevel user = Respond 403
      <-> exists u, user = Some u
                    /\ subscriptionLevels (subscription u)
                       < subscriptionLevels requiredLevel)
  /\ (requireSubscription requiredLevel user = Next
      \/ requireSubscription requiredLevel user = Respond 401
      \/ requireSubscription requiredLevel user = Respond 403)
  /\ (requireSubscription enterprise user = Next ->
      requireSubscription pro user = Next).
Proof.
  unfold requireSubscription. destruct user as [u|].
  - destruct (Nat.ltb_spec (subscriptionLevels (subscription u))
                           (subscriptionLevels requiredLevel)) as [Hlt|Hge].
    + split; [split; [discriminate | intros [u' [[= <-] Hl]]; lia]|].
      split; [split; discriminate|].
      split; [split; [intros _; exists u; auto | reflexivity]|].
      split; [auto|].
      destruct (subscription u); cbn; congruence.
    + split; [split; [intros _; exists u; split; [reflexivity | lia] | reflexivity]|].
      split; [split; discriminate|].
      split; [split; [discriminate | intros [u' [[= <-] Hl]]; lia]|].
      split; [auto|].
      destruct (subscription u); cbn; congruence.
  - split; [split; [discriminate | intros [u [Hu _]]; discriminate]|].
    split; [split; reflexivity|].
    split; [split; [discriminate | intros [u [Hu _]]; discriminate]|].
    split; [auto | discriminate].
Qed.

Lemma includes_objectId mongoose array hex :
  includes mongoose array (IdObject hex) = true
  <-> exists element, In element array
                      /\ DocumentModel.element_is_objectId mongoose element hex
                         = true.
Proof. cbn [includes]. apply existsb_exists. Qed.

(** The document gate hands [canUserAccess] the ObjectId of the user,
    where the method expects the id as a string. An ObjectId is never
    strictly equal to the string in [userId], so owning a document opens
    nothing: the gate lets a request pass exactly for an attached user and
    a document that exists and is public or has a collaborator that its
    array takes to be the ObjectId. The owner of a private document
    without collaborators is answered 403, although the method, called
    with the owner's id as a string, grants access. *)
Theorem checkDocumentAccess_gate mongoose user found :
  (checkDocumentAccess mongoose user found = Next
   <-> exists u document,
         user = Some u /\ found = Ok (Some document)
         /\ (isPublic document = true
             \/ exists element,
                  In element (collaborators document)
                  /\ DocumentModel.element_is_objectId mongoose element u = true))
  /\ (forall u document,
        user = Some u -> found = Ok (Some document) ->
        isPublic document = false -> collaborators document = [] ->
        checkDocumentAccess mongoose user found = Respond 403)
  /\ (forall document,
        canUserAccess mongoose document (IdString (userId document)) = true).
Proof.
  unfold checkDocumentAccess, canUserAccess. split; [split|split].
  - destruct user as [u|]; [|discriminate].
    destruct found as [[document|]|e]; try discriminate.
    cbn [strict_equal orb].
    destruct (isPublic document) eqn:Hp; cbn [orb].
    + intros _. exists u, document. auto.
    + destruct (includes mongoose (collaborators document) (IdObject u)) eqn:Hc;
        [|discriminate].
      intros _. exists u, document. apply includes_objectId in Hc. auto.
  - intros [u [document [-> [-> Haccess]]]]. cbn [strict_equal orb].
    destruct Haccess as [-> | Hin]; [reflexivity|].
    apply includes_objectId in Hin. rewrite Hin. now rewrite orb_true_r.
  - intros u document -> -> Hp Hc. cbn [strict_equal orb].
    rewrite Hp, Hc. reflexivity.
  - intros document. cbn [strict_equal]. now rewrite String.eqb_refl.
Qed.

(** The owner of the sample document, which is private and shared with
    one other user, is refused; the collaborator passes. *)
Example owner_refused :
  checkDocumentAccess Samples.mongoose (Some "user1")
                      (Ok (Some MoreSamples.shared_document)) = Respond 403
  /\ checkDocumentAccess Samples.mongoose (Some "user2")
                         (Ok (Some MoreSamples.shared_document)) = Next
  /\ canUserAccess Samples.mongoose MoreSamples.shared_document
                   (IdString "user1") = true.
Proof. repeat split. Qed.

End GateFacts.

(** ** The Document model: the guards of calculateSimilarity *)

Section SimilarityGuards.
Import DocumentModel.

(** [calculateSimilarity] returns 0 when either document has no vector,
    and when the vector of the document it is called on is empty. *)
Theorem calculateSimilarity_guards (this other : Doc float) :
  embeddings this = None \/ embeddings other = None
  \/ embeddings this = Some [] ->
  calculateSimilarity this other = 0%float.
Proof.
  intros [H | [H | H]].
  - apply calculateSimilarity_absent. now left.
  - apply calculateSimilarity_absent. now right.
  - now apply calculateSimilarity_this_empty.
Qed.

Lemma calculateSimilarity_guards_witness :
  calculateSimilarity (Samples.uploaded "a" (Some []))
                      (Samples.uploaded "b" (Some [1%float]))
  = 0%float.
Proof.
  apply (calculateSimilarity_guards (Samples.uploaded "a" (Some []))
           (Samples.uploaded "b" (Some [1%float]))).
  right. right. reflexivity.
Defined.

End SimilarityGuards.
